(** * ado-pr-mcp: a shallow embedding of the Azure DevOps pull-request
    resource server, and the properties of its specification.

    The Python modules of [src/ado_pr_mcp] are embedded one Rocq module
    each ([models], [git_detector], [azure_client], [config],
    [resources]).  A Python [str] is a Rocq [string] (a sequence of code
    points below 256), a [dict] with string keys is a [gmap string _],
    an exception is a constructor of [exn], and code that can raise
    returns a [result].  Code that touches the process (the two module
    level singletons, the [git] subprocess, the HTTP connection) runs in
    the state-and-exception monad [M] over a [World].  Logging leaves no
    trace in a result and is left out. *)

From Stdlib Require Import String Ascii ZArith Lia.
From stdpp Require Import base option list gmap strings.

Set Warnings "-register-all".
#[local] Open Scope string_scope.
#[local] Open Scope Z_scope.

(** ** Python strings *)

Module pystr.

Definition chr (n : nat) : ascii := ascii_of_nat n.
Definition ord (c : ascii) : nat := nat_of_ascii c.

Definition between (lo hi : nat) (c : ascii) : bool :=
  (Nat.leb lo (ord c) && Nat.leb (ord c) hi)%bool.

Definition isupper (c : ascii) : bool := between 65 90 c.
Definition islower (c : ascii) : bool := between 97 122 c.
Definition isdigit (c : ascii) : bool := between 48 57 c.
(** [c.isascii() and c.isalpha()] *)
Definition isascii_alpha (c : ascii) : bool := (isupper c || islower c)%bool.
(** [c.isascii()] *)
Definition isascii (c : ascii) : bool := Nat.leb (ord c) 127.

(** [str.isspace] on the code points below 256: TAB..CR, FS..US, SPACE,
    NEL and NBSP. *)
Definition isspace (c : ascii) : bool :=
  (between 9 13 c || between 28 32 c
   || Nat.eqb (ord c) 133 || Nat.eqb (ord c) 160)%bool.

Definition lower_char (c : ascii) : ascii :=
  if isupper c then chr (ord c + 32) else c.

Fixpoint lower (s : string) : string :=
  match s with
  | EmptyString => EmptyString
  | String c s' => String (lower_char c) (lower s')
  end.

Fixpoint all (p : ascii -> bool) (s : string) : bool :=
  match s with
  | EmptyString => true
  | String c s' => (p c && all p s')%bool
  end.

(** [c in s] for a one-character [c] *)
Fixpoint has (c : ascii) (s : string) : bool :=
  match s with
  | EmptyString => false
  | String x s' => (Ascii.eqb x c || has c s')%bool
  end.

(** [sub in s]: case-sensitive substring test *)
Fixpoint contains (sub s : string) : bool :=
  (String.prefix sub s
   || match s with
      | EmptyString => false
      | String _ s' => contains sub s'
      end)%bool.

(** [s[:i]] and [s[i:]] for [0 <= i] *)
Fixpoint take (i : nat) (s : string) : string :=
  match i, s with
  | S i', String c s' => String c (take i' s')
  | _, _ => EmptyString
  end.

Fixpoint drop (i : nat) (s : string) : string :=
  match i, s with
  | S i', String _ s' => drop i' s'
  | _, _ => s
  end.

(** [s.find(c)]: [None] stands for Python's [-1] *)
Fixpoint find (c : ascii) (s : string) : option nat :=
  match s with
  | EmptyString => None
  | String x s' => if Ascii.eqb x c then Some O else S <$> find c s'
  end.

(** [s.find(c, start)] *)
Definition find_from (c : ascii) (start : nat) (s : string) : option nat :=
  (fun i => (start + i)%nat) <$> find c (drop start s).

(** [s.rfind(c)] *)
Fixpoint rfind (c : ascii) (s : string) : option nat :=
  match s with
  | EmptyString => None
  | String x s' =>
      match rfind c s' with
      | Some i => Some (S i)
      | None => if Ascii.eqb x c then Some O else None
      end
  end.

(** [s.lstrip(chars)] with the character set given as a predicate *)
Fixpoint lstrip (p : ascii -> bool) (s : string) : string :=
  match s with
  | EmptyString => EmptyString
  | String c s' => if p c then lstrip p s' else s
  end.

(** [s.strip()] *)
Definition strip (s : string) : string :=
  String.rev (lstrip isspace (String.rev (lstrip isspace s))).

(** [s.replace(c, "")] for each [c] satisfying [p] *)
Fixpoint remove (p : ascii -> bool) (s : string) : string :=
  match s with
  | EmptyString => EmptyString
  | String c s' => if p c then remove p s' else String c (remove p s')
  end.

(** [s.split(c, 1)] when [c in s]: the text before and after the first
    occurrence *)
Definition split1 (c : ascii) (s : string) : string * string :=
  match find c s with
  | Some i => (take i s, drop (S i) s)
  | None => (s, EmptyString)
  end.

(** truthiness of a [str] *)
Definition truthy (s : string) : bool :=
  match s with EmptyString => false | _ => true end.

End pystr.

(** ** Exceptions and results *)

(** Parsed JSON, as [json.loads] and [Response.json()] deliver it. *)
Inductive json : Type :=
  | JNull
  | JBool (b : bool)
  | JInt (z : Z)
  | JFloat (literal : string)
  | JStr (s : string)
  | JArr (items : list json)
  | JObj (members : gmap string json).

(** An [httpx.Response]: the status code and what [.json()] makes of the
    body ([None] when the body is not JSON). *)
Record Response : Type := mkResponse {
  status_code : Z;
  body_json : option json;
}.

Inductive exn : Type :=
  | ValueError (msg : string)
  | KeyError (key : string)
  | TypeError (msg : string)
  | AttributeError (msg : string)
  | ValidationError (model : string)      (* pydantic *)
  | JSONDecodeError
  | HTTPStatusError (response : Response) (* httpx, raised by raise_for_status *)
  | ConnectError (msg : string)           (* httpx: refused, DNS failure *)
  | TimeoutException (msg : string)       (* httpx: connect/read/write/pool timeout *)
  | TransportError (msg : string)         (* httpx: any other request error *)
  | CalledProcessError (returncode : Z)   (* subprocess, check=True *)
  | TimeoutExpired                        (* subprocess, timeout=5 *)
  | FileNotFoundError                     (* subprocess, no git executable *)
  | OSError (msg : string).               (* subprocess, any other failure *)

Inductive result (A : Type) : Type :=
  | Ok (a : A)
  | Raise (e : exn).
Arguments Ok {A} a.
Arguments Raise {A} e.

Definition rbind {A B} (r : result A) (f : A -> result B) : result B :=
  match r with
  | Ok a => f a
  | Raise e => Raise e
  end.

#[export] Instance result_ret : MRet result := fun _ a => Ok a.
#[export] Instance result_bind : MBind result := fun _ _ f r => rbind r f.
#[export] Instance result_throw : MThrow exn result := fun _ e => Raise e.
#[export] Instance result_fmap : FMap result :=
  fun _ _ f r => rbind r (fun a => Ok (f a)).

(** ** The [re] patterns of the program

    The three patterns used by the source are sequences of literal
    characters and capturing groups of the form [([^c]+)].  The matcher
    is the backtracking one of [re]: a group is greedy, and gives
    characters back one at a time while the rest of the pattern fails. *)

Module re.

Inductive item : Type :=
  | Lit (c : ascii)            (* the character c *)
  | Group (c : ascii).         (* ([^c]+) *)

Fixpoint lits (s : string) : list item :=
  match s with
  | EmptyString => []
  | String c s' => Lit c :: lits s'
  end.

(** [([^c]+)] followed by the continuation [k] *)
Fixpoint group (c : ascii) (k : string -> option (list string)) (s : string)
  : option (string * list string) :=
  match s with
  | EmptyString => None
  | String x s' =>
      if Ascii.eqb x c then None
      else match group c k s' with
           | Some (g, gs) => Some (String x g, gs)
           | None =>
               match k s' with
               | Some gs => Some (String x EmptyString, gs)
               | None => None
               end
           end
  end.

(** A match of the whole pattern at the start of [s]: the captured
    groups, left to right. *)
Fixpoint match_here (p : list item) (s : string) : option (list string) :=
  match p with
  | [] => Some []
  | Lit c :: p' =>
      match s with
      | String x s' => if Ascii.eqb x c then match_here p' s' else None
      | EmptyString => None
      end
  | Group c :: p' =>
      match group c (match_here p') s with
      | Some (g, gs) => Some (g :: gs)
      | None => None
      end
  end.

(** [re.match(p, s)] *)
Definition match_ (p : list item) (s : string) : option (list string) :=
  match_here p s.

(** [re.search(p, s)]: the match at the leftmost position that has one *)
Fixpoint search (p : list item) (s : string) : option (list string) :=
  match match_here p s with
  | Some gs => Some gs
  | None =>
      match s with
      | EmptyString => None
      | String _ s' => search p s'
      end
  end.

End re.

(** ** [urllib.parse.urlparse] (CPython 3.12)

    The part of the standard library that [parse_azure_devops_url] calls.
    Two checks of the library are operations of [UrlLib].  For a
    bracketed host it validates the text between the brackets as an IP
    literal ([_check_bracketed_netloc]).  For a host that is not ASCII,
    [_checknetloc] raises [ValueError] when the NFKC normal form of the
    host contains one of [/?#@:] ([_checknetloc_nfkc] is that part of
    it). *)

Class UrlLib : Type := {
  _check_bracketed_netloc : string -> result unit;
  _checknetloc_nfkc : string -> result unit;
}.

Module urllib.

Record ParseResult : Type := mkParseResult {
  scheme : string;
  netloc : string;
  path : string;
  params : string;
  query : string;
  fragment : string;
}.

(** [_WHATWG_C0_CONTROL_OR_SPACE] *)
Definition c0_control_or_space (c : ascii) : bool :=
  Nat.leb (pystr.ord c) 32.

(** [_UNSAFE_URL_BYTES_TO_REMOVE = ['\t', '\r', '\n']] *)
Definition unsafe_url_byte (c : ascii) : bool :=
  (Nat.eqb (pystr.ord c) 9 || Nat.eqb (pystr.ord c) 13
   || Nat.eqb (pystr.ord c) 10)%bool.

(** [scheme_chars]: letters, digits and [+-.] *)
Definition scheme_char (c : ascii) : bool :=
  (pystr.isascii_alpha c || pystr.isdigit c
   || Ascii.eqb c "+" || Ascii.eqb c "-" || Ascii.eqb c ".")%bool.

Definition uses_params : list string :=
  [""; "ftp"; "hdl"; "prospero"; "http"; "imap"; "https"; "shttp"; "rtsp";
   "rtspu"; "sip"; "sips"; "mms"; "sftp"; "tel"].

Definition min_opt (delim : nat) (w : option nat) : nat :=
  match w with Some i => Nat.min delim i | None => delim end.

(** [_splitnetloc(url, 2)] *)
Definition _splitnetloc (url : string) (start : nat) : string * string :=
  let delim := String.length url in
  let delim := min_opt delim (pystr.find_from "/" start url) in
  let delim := min_opt delim (pystr.find_from "?" start url) in
  let delim := min_opt delim (pystr.find_from "#" start url) in
  (pystr.drop start (pystr.take delim url), pystr.drop delim url).

(** The scheme, when the text before the first colon is one. *)
Definition split_scheme (url : string) : string * string :=
  match pystr.find ":" url with
  | Some (S i') =>
      let i := S i' in
      match url with
      | String c0 _ =>
          if (pystr.isascii_alpha c0
              && pystr.all scheme_char (pystr.take i url))%bool
          then (pystr.lower (pystr.take i url), pystr.drop (S i) url)
          else (EmptyString, url)
      | EmptyString => (EmptyString, url)
      end
  | _ => (EmptyString, url)
  end.

Section with_lib.
Context `{UrlLib}.

(** [_checknetloc(netloc)]: nothing to check when [not netloc or
    netloc.isascii()] *)
Definition _checknetloc (netloc : string) : result unit :=
  if (negb (pystr.truthy netloc) || pystr.all pystr.isascii netloc)%bool
  then Ok tt
  else _checknetloc_nfkc netloc.

(** [urlsplit(url)]: scheme, netloc, path, query, fragment *)
Definition urlsplit (url : string)
  : result (string * string * string * string * string) :=
  let url := pystr.lstrip c0_control_or_space url in
  let url := pystr.remove unsafe_url_byte url in
  let '(scheme, url) := split_scheme url in
  '(netloc, url) ←
    (if String.eqb (pystr.take 2 url) "//" then
       let '(netloc, url) := _splitnetloc url 2 in
       let lb := pystr.has "[" netloc in
       let rb := pystr.has "]" netloc in
       if ((lb && negb rb) || (rb && negb lb))%bool then
         Raise (ValueError "Invalid IPv6 URL")
       else if (lb && rb)%bool then
         _ ← _check_bracketed_netloc netloc;
         Ok (netloc, url)
       else Ok (netloc, url)
     else Ok (EmptyString, url));
  let '(url, fragment) := pystr.split1 "#" url in
  let '(url, query) := pystr.split1 "?" url in
  _ ← _checknetloc netloc;
  Ok (scheme, netloc, url, query, fragment).

(** [_splitparams(url)], called when [';' in url] *)
Definition _splitparams (url : string) : string * string :=
  match pystr.rfind "/" url with
  | Some slash =>
      match pystr.find_from ";" slash url with
      | Some i => (pystr.take i url, pystr.drop (S i) url)
      | None => (url, EmptyString)
      end
  | None => pystr.split1 ";" url
  end.

Definition urlparse (url : string) : result ParseResult :=
  '(scheme, netloc, url, query, fragment) ← urlsplit url;
  let '(url, params) :=
    if (bool_decide (scheme ∈ uses_params) && pystr.has ";" url)%bool
    then _splitparams url
    else (url, EmptyString) in
  Ok (mkParseResult scheme netloc url params query fragment).
End with_lib.

End urllib.

(** ** State and exceptions

    A computation over a state [S] that returns an [A] or raises.  Each
    module runs over the part of the process it touches; [zoom] runs a
    computation of a part inside the whole. *)

Definition M (S A : Type) : Type := S -> result A * S.

#[export] Instance M_ret {S} : MRet (M S) := fun _ a s => (Ok a, s).
#[export] Instance M_bind {S} : MBind (M S) :=
  fun _ _ f m s =>
    match m s with
    | (Ok a, s') => f a s'
    | (Raise e, s') => (Raise e, s')
    end.
#[export] Instance M_throw {S} : MThrow exn (M S) := fun _ e s => (Raise e, s).

(** A computation that raises or returns without touching the state. *)
Definition mlift {S A} (r : result A) : M S A := fun s => (r, s).

(** [try: m except ...: handler] *)
Definition mtry {S A} (m : M S A) (handler : exn -> M S A) : M S A :=
  fun s => match m s with
           | (Ok a, s') => (Ok a, s')
           | (Raise e, s') => handler e s'
           end.

Definition zoom {S T A} (get : T -> S) (set : S -> T -> T) (m : M S A) : M T A :=
  fun t => let '(r, s') := m (get t) in (r, set s' t).

(** [for x in xs: ys.append(f(x))], stopping at the first exception *)
Fixpoint for_each {A B} (f : A -> result B) (xs : list A) : result (list B) :=
  match xs with
  | [] => Ok []
  | x :: xs' =>
      y ← f x;
      ys ← for_each f xs';
      Ok (y :: ys)
  end.

(** ** [models.py] *)

(** A [datetime.datetime]: microseconds since the epoch and the UTC
    offset in seconds, if the value is timezone-aware. *)
Record datetime : Type := mkDatetime {
  timestamp_us : Z;
  utcoffset : option Z;
}.

Module models.

Record PullRequestAuthor : Type := mkPullRequestAuthor {
  display_name : string;
  unique_name : string;
  id : string;
}.

Record PullRequest : Type := mkPullRequest {
  pull_request_id : Z;
  title : string;
  description : option string;
  status : string;
  created_date : datetime;
  created_by : PullRequestAuthor;
  source_ref_name : string;
  target_ref_name : string;
  url : string;
  repository_id : string;
}.

Record PullRequestList : Type := mkPullRequestList {
  pull_requests : list PullRequest;
  count : Z;
}.

Definition from_pull_requests (prs : list PullRequest) : PullRequestList :=
  {| pull_requests := prs; count := Z.of_nat (length prs) |}.

(** What the program takes from pydantic: the coercion of a value to
    each field type ([None] when the value is rejected), and the JSON
    text of a list ([model_dump_json(indent=2)]). *)
Class Pydantic : Type := {
  validate_str : json -> option string;
  validate_int : json -> option Z;
  validate_datetime : json -> option datetime;
  model_dump_json : PullRequestList -> string;
}.

Section with_pydantic.
Context `{Pydantic}.

(** [Optional[str]] *)
Definition validate_optional_str (v : json) : option (option string) :=
  match v with
  | JNull => Some None
  | _ => Some <$> validate_str v
  end.

(** [PullRequestAuthor(display_name=..., unique_name=..., id=...)] *)
Definition new_PullRequestAuthor (display_name unique_name id : json)
  : result PullRequestAuthor :=
  match validate_str display_name, validate_str unique_name,
        validate_str id with
  | Some d, Some u, Some i => Ok (mkPullRequestAuthor d u i)
  | _, _, _ => Raise (ValidationError "PullRequestAuthor")
  end.

(** [PullRequest(pull_request_id=..., ..., repository_id=...)] *)
Definition new_PullRequest
    (pull_request_id title description status created_date : json)
    (created_by : PullRequestAuthor)
    (source_ref_name target_ref_name url repository_id : json)
  : result PullRequest :=
  match validate_int pull_request_id, validate_str title,
        validate_optional_str description, validate_str status,
        validate_datetime created_date, validate_str source_ref_name,
        validate_str target_ref_name, validate_str url,
        validate_str repository_id with
  | Some i, Some t, Some d, Some st, Some cd, Some sr, Some tr, Some u,
    Some r =>
      Ok (mkPullRequest i t d st cd created_by sr tr u r)
  | _, _, _, _, _, _, _, _, _ => Raise (ValidationError "PullRequest")
  end.
End with_pydantic.

End models.

(** ** Python operations on parsed JSON *)

Module py.

(** [d.get(key, default)] *)
Definition get (d : json) (key : string) (fallback : json) : result json :=
  match d with
  | JObj m => Ok (default fallback (m !! key))
  | _ => Raise (AttributeError "get")
  end.

(** [d[key]] for a string [key] *)
Definition getitem (d : json) (key : string) : result json :=
  match d with
  | JObj m =>
      match m !! key with
      | Some v => Ok v
      | None => Raise (KeyError key)
      end
  | JArr _ => Raise (TypeError "list indices must be integers or slices, not str")
  | JStr _ => Raise (TypeError "string indices must be integers, not 'str'")
  | _ => Raise (TypeError "object is not subscriptable")
  end.

Fixpoint chars (s : string) : list json :=
  match s with
  | EmptyString => []
  | String c s' => JStr (String c EmptyString) :: chars s'
  end.

(** [for x in v]: the elements of a list, the keys of a dict, the
    characters of a string.  (A [gmap] does not keep the insertion order
    of the keys; the program fails on the first key whichever it is.) *)
Definition iter (v : json) : result (list json) :=
  match v with
  | JArr items => Ok items
  | JObj m => Ok (JStr <$> (map_to_list m).*1)
  | JStr s => Ok (chars s)
  | _ => Raise (TypeError "object is not iterable")
  end.

End py.

(** ** [config.py] *)

Module config.

Record Settings : Type := mkSettings {
  azure_devops_pat : string;
  ado_organization : option string;
  ado_project : option string;
  ado_repository : option string;
  mcp_transport : string;
  mcp_log_level : string;
}.

(** [environ] is what [Settings()] makes of the process environment and
    the [.env] file: the settings, or a [ValidationError] when the
    credential is missing.  [_settings] is the module-level singleton. *)
Record State : Type := mkState {
  environ : result Settings;
  _settings : option Settings;
}.

Definition get_settings : M State Settings :=
  fun s =>
    match _settings s with
    | Some settings => (Ok settings, s)
    | None =>
        match environ s with
        | Ok settings =>
            (Ok settings, {| environ := environ s; _settings := Some settings |})
        | Raise e => (Raise e, s)
        end
    end.

End config.

(** ** [git_detector.py] *)

Module git_detector.

Record RepoInfo : Type := mkRepoInfo {
  organization : string;
  project : string;
  repository : string;
}.

(** The [git] tool as the process sees it: [run_outcome n] is what the
    [n]-th call of [subprocess.run(["git", "config", "--get",
    "remote.origin.url"], check=True, timeout=5)] gives, its standard
    output or the exception it raises. *)
Record Subprocess : Type := mkSubprocess {
  run_outcome : nat -> result string;
  run_calls : nat;
}.

Definition subprocess_run : M Subprocess string :=
  fun s => (run_outcome s (run_calls s),
            {| run_outcome := run_outcome s; run_calls := S (run_calls s) |}).

Definition get_git_remote_url : M Subprocess (option string) :=
  mtry (stdout ← subprocess_run;
        mret (Some (pystr.strip stdout)))
       (fun e =>
          match e with
          | CalledProcessError _ | TimeoutExpired | FileNotFoundError =>
              mret None
          | _ => mthrow e
          end).

(** [r"/([^/]+)/([^/]+)/_git/([^/]+)"] *)
Definition modern_pattern : list re.item :=
  [re.Lit "/"; re.Group "/"; re.Lit "/"; re.Group "/"]
    ++ re.lits "/_git/" ++ [re.Group "/"].

(** [r"^([^.]+)\.visualstudio\.com"] *)
Definition legacy_host_pattern : list re.item :=
  [re.Group "."] ++ re.lits ".visualstudio.com".

(** [r"/([^/]+)/_git/([^/]+)"] *)
Definition legacy_pattern : list re.item :=
  [re.Lit "/"; re.Group "/"] ++ re.lits "/_git/" ++ [re.Group "/"].

Section with_lib.
Context `{UrlLib}.

Definition parse_azure_devops_url (git_url : string)
  : result (option RepoInfo) :=
  parsed ← urllib.urlparse git_url;
  if pystr.contains "dev.azure.com" (urllib.netloc parsed) then
    match re.search modern_pattern (urllib.path parsed) with
    | Some [g1; g2; g3] => Ok (Some (mkRepoInfo g1 g2 g3))
    | _ => Ok None
    end
  else if pystr.contains "visualstudio.com" (urllib.netloc parsed) then
    match re.match_ legacy_host_pattern (urllib.netloc parsed) with
    | Some [org] =>
        match re.search legacy_pattern (urllib.path parsed) with
        | Some [g1; g2] => Ok (Some (mkRepoInfo org g1 g2))
        | _ => Ok None
        end
    | _ => Ok None
    end
  else Ok None.

Definition detect_current_repo : M Subprocess (option RepoInfo) :=
  url ← get_git_remote_url;
  match url with
  | Some url =>
      if pystr.truthy url then mlift (parse_azure_devops_url url)
      else mret None
  | None => mret None
  end.
End with_lib.

End git_detector.

(** ** [azure_client.py] *)

Module azure_client.

Definition API_VERSION : string := "7.1".

(** The client: its organization, the base address built from it, and the
    credentials [":" + personal_access_token] that its [Authorization]
    header carries in base64. *)
Record AzureDevOpsClient : Type := mkAzureDevOpsClient {
  organization : string;
  base_url : string;
  credentials : string;
}.

Definition __init__ (organization personal_access_token : string)
  : AzureDevOpsClient :=
  {| organization := organization;
     base_url := "https://dev.azure.com/" +:+ organization;
     credentials := ":" +:+ personal_access_token |}.

(** One [GET]: the address and the query parameters. *)
Record Request : Type := mkRequest {
  url : string;
  params : gmap string string;
}.

(** The network as the process sees it: what each request is answered
    with (a response, or the [httpx] exception of a failed transfer), and
    the requests sent so far. *)
Record Network : Type := mkNetwork {
  reply : Request -> result Response;
  sent : list Request;
}.

(** [self.client.get(url, params=params)] *)
Definition client_get (url : string) (params : gmap string string)
  : M Network Response :=
  fun n =>
    let request := mkRequest url params in
    (reply n request, {| reply := reply n; sent := sent n ++ [request] |}).

(** [Response.is_success] *)
Definition is_success (response : Response) : bool :=
  (200 <=? status_code response) && (status_code response <=? 299).

Definition raise_for_status (response : Response) : result Response :=
  if is_success response then Ok response
  else Raise (HTTPStatusError response).

(** [response.json()] *)
Definition response_json (response : Response) : result json :=
  match body_json response with
  | Some data => Ok data
  | None => Raise JSONDecodeError
  end.

(** [url = f"{self.base_url}/{project}/_apis/git/repositories/{repository}/pullrequests"] *)
Definition pull_requests_url (self : AzureDevOpsClient)
    (project repository : string) : string :=
  base_url self +:+ "/" +:+ project +:+ "/_apis/git/repositories/"
    +:+ repository +:+ "/pullrequests".

(** [params]: the API version and, unless [status] is ["all"], the status
    filter *)
Definition query_params (status : string) : gmap string string :=
  let params : gmap string string := {[ "api-version" := API_VERSION ]} in
  if bool_decide (status ≠ "all")
  then <[ "searchCriteria.status" := status ]> params
  else params.

Section with_pydantic.
Context `{models.Pydantic}.

(** The body of the loop over [data.get("value", [])]. *)
Definition pull_request_of (pr_data : json) : result models.PullRequest :=
  created_by_data ← py.get pr_data "createdBy" (JObj ∅);
  display_name ← py.get created_by_data "displayName" (JStr "Unknown");
  unique_name ← py.get created_by_data "uniqueName" (JStr "");
  id ← py.get created_by_data "id" (JStr "");
  created_by ← models.new_PullRequestAuthor display_name unique_name id;
  pull_request_id ← py.getitem pr_data "pullRequestId";
  title ← py.getitem pr_data "title";
  description ← py.get pr_data "description" JNull;
  status ← py.getitem pr_data "status";
  created_date ← py.getitem pr_data "creationDate";
  source_ref_name ← py.getitem pr_data "sourceRefName";
  target_ref_name ← py.getitem pr_data "targetRefName";
  url ← py.get pr_data "url" (JStr "");
  repository ← py.getitem pr_data "repository";
  repository_id ← py.getitem repository "id";
  models.new_PullRequest pull_request_id title description status
    created_date created_by source_ref_name target_ref_name url
    repository_id.

Definition get_pull_requests (self : AzureDevOpsClient)
    (project repository status : string)
  : M Network models.PullRequestList :=
  let url := pull_requests_url self project repository in
  let params := query_params status in
  mtry (response ← client_get url params;
        _ ← mlift (raise_for_status response);
        data ← mlift (response_json response);
        value ← mlift (py.get data "value" (JArr []));
        items ← mlift (py.iter value);
        pr_list ← mlift (for_each pull_request_of items);
        mret (models.from_pull_requests pr_list))
       (fun e =>
          match e with
          | HTTPStatusError response =>
              if status_code response =? 401 then
                mthrow (ValueError
                  "Authentication failed. Check AZURE_DEVOPS_PAT token and permissions")
              else if status_code response =? 404 then
                mthrow (ValueError
                  ("Project '" +:+ project +:+ "' or repository '"
                   +:+ repository +:+ "' not found"))
              else mthrow e
          | ConnectError msg | TimeoutException msg =>
              mthrow (ValueError
                ("Network error connecting to Azure DevOps: " +:+ msg))
          | _ => mthrow e
          end).
End with_pydantic.

End azure_client.

(** ** [json.dumps(d, indent=2)] for a [dict] of strings

    The dict is given as the list of its items in insertion order, which is
    the order of the output. *)

Module pyjson.

Definition dquote : ascii := "034".
Definition backslash : ascii := "092".
Definition newline : ascii := "010".

Definition hex_digit (n : nat) : ascii :=
  if Nat.ltb n 10 then pystr.chr (48 + n) else pystr.chr (87 + n).

(** [ensure_ascii=True]: the quote and the backslash are escaped, and so
    is every character outside [' '..'~']. *)
Definition escape (c : ascii) : string :=
  let n := pystr.ord c in
  if Ascii.eqb c dquote then String backslash (String dquote EmptyString)
  else if Ascii.eqb c backslash then String backslash (String backslash EmptyString)
  else if Nat.eqb n 10 then String backslash "n"
  else if Nat.eqb n 13 then String backslash "r"
  else if Nat.eqb n 9 then String backslash "t"
  else if Nat.eqb n 8 then String backslash "b"
  else if Nat.eqb n 12 then String backslash "f"
  else if (Nat.leb 32 n && Nat.leb n 126)%bool then String c EmptyString
  else String backslash
         ("u00" +:+ String (hex_digit (n / 16))
                      (String (hex_digit (n mod 16)) EmptyString)).

Fixpoint escape_all (s : string) : string :=
  match s with
  | EmptyString => EmptyString
  | String c s' => escape c +:+ escape_all s'
  end.

Definition quote (s : string) : string :=
  String dquote (escape_all s +:+ String dquote EmptyString).

Definition item (kv : string * string) : string :=
  quote kv.1 +:+ ": " +:+ quote kv.2.

Fixpoint more_items (d : list (string * string)) : string :=
  match d with
  | [] => EmptyString
  | kv :: d' => "," +:+ String newline ("  " +:+ item kv +:+ more_items d')
  end.

Definition dumps (d : list (string * string)) : string :=
  match d with
  | [] => "{}"
  | kv :: d' =>
      "{" +:+ String newline ("  " +:+ item kv +:+ more_items d'
                              +:+ String newline "}")
  end.

End pyjson.

(** ** [resources.py] *)

Module resources.

(** The process: the configuration singleton and its source, the [git]
    tool, the network, and the module-level client [_ado_client]. *)
Record World : Type := mkWorld {
  settings : config.State;
  git : git_detector.Subprocess;
  network : azure_client.Network;
  _ado_client : option azure_client.AzureDevOpsClient;
}.

Definition in_config {A} : M config.State A -> M World A :=
  zoom settings (fun s w => mkWorld s (git w) (network w) (_ado_client w)).
Definition in_git {A} : M git_detector.Subprocess A -> M World A :=
  zoom git (fun g w => mkWorld (settings w) g (network w) (_ado_client w)).
Definition in_network {A} : M azure_client.Network A -> M World A :=
  zoom network (fun n w => mkWorld (settings w) (git w) n (_ado_client w)).

Definition read_client : M World (option azure_client.AzureDevOpsClient) :=
  fun w => (Ok (_ado_client w), w).
Definition write_client (client : azure_client.AzureDevOpsClient) : M World unit :=
  fun w => (Ok tt, mkWorld (settings w) (git w) (network w) (Some client)).

Definition error_response : list (string * string) :=
  [ ("error", "Not in an Azure DevOps git repository");
    ("suggestion",
     "Use explicit organization/project/repository parameters or run from an Azure DevOps git repository") ].

Section with_libs.
Context `{UrlLib} `{models.Pydantic}.

Definition get_ado_client : M World azure_client.AzureDevOpsClient :=
  cached ← read_client;
  match cached with
  | Some client => mret client
  | None =>
      settings ← in_config config.get_settings;
      repo_info ← in_git git_detector.detect_current_repo;
      let org :=
        match repo_info with
        | Some info => Some (git_detector.organization info)
        | None => config.ado_organization settings
        end in
      match org with                    (* [if not org: raise] *)
      | Some (String c org') =>
          let client :=
            azure_client.__init__ (String c org')
              (config.azure_devops_pat settings) in
          _ ← write_client client;
          mret client
      | _ =>
          mthrow (ValueError
            "No organization found. Set ADO_ORGANIZATION environment variable or run from an Azure DevOps git repository")
      end
  end.

Definition list_pull_requests_resource
    (organization project repository status : string) : M World string :=
  mtry (client ← get_ado_client;
        result ← in_network
          (azure_client.get_pull_requests client project repository status);
        mret (models.model_dump_json result))
       (fun e => mthrow e).

Definition list_current_pull_requests_resource (status : string)
  : M World string :=
  mtry (repo_info ← in_git git_detector.detect_current_repo;
        match repo_info with
        | None => mret (pyjson.dumps error_response)
        | Some repo_info =>
            client ← get_ado_client;
            result ← in_network
              (azure_client.get_pull_requests client
                 (git_detector.project repo_info)
                 (git_detector.repository repo_info) status);
            mret (models.model_dump_json result)
        end)
       (fun e => mthrow e).
End with_libs.

End resources.

(** ** Vocabulary of the properties *)

(** The text that a pattern matches when its groups capture [gs]. *)
Fixpoint instance_of (p : list re.item) (gs : list string) : string :=
  match p, gs with
  | re.Lit c :: p', _ => String c (instance_of p' gs)
  | re.Group _ :: p', g :: gs' => g +:+ instance_of p' gs'
  | _, _ => ""
  end.

(** A text that [([^c]+)] can capture. *)
Definition segment (c : ascii) (g : string) : Prop :=
  g <> "" /\ pystr.has c g = false.

(** A character that [urlparse] leaves in the path: none of [?], [#] and
    [;], which end the path, and no TAB, CR or LF, which are removed. *)
Definition path_char (c : ascii) : bool :=
  negb (Ascii.eqb c "?" || Ascii.eqb c "#" || Ascii.eqb c ";"
        || urllib.unsafe_url_byte c).

Fixpoint captures (p : list re.item) (gs : list string) : Prop :=
  match p, gs with
  | [], [] => True
  | re.Lit _ :: p', _ => captures p' gs
  | re.Group c :: p', g :: gs' => segment c g /\ captures p' gs'
  | _, _ => False
  end.

Section decoding.
Context `{models.Pydantic}.

(** What [get_pull_requests] makes of a response. *)
Definition decode (response : Response) : result models.PullRequestList :=
  _ ← azure_client.raise_for_status response;
  data ← azure_client.response_json response;
  value ← py.get data "value" (JArr []);
  items ← py.iter value;
  pr_list ← for_each azure_client.pull_request_of items;
  Ok (models.from_pull_requests pr_list).

End decoding.

(** What its handlers make of an exception. *)
Definition translate (project repository : string) (e : exn) : exn :=
  match e with
  | HTTPStatusError response =>
      if status_code response =? 401 then
        ValueError
          "Authentication failed. Check AZURE_DEVOPS_PAT token and permissions"
      else if status_code response =? 404 then
        ValueError ("Project '" +:+ project +:+ "' or repository '"
                    +:+ repository +:+ "' not found")
      else e
  | ConnectError msg | TimeoutException msg =>
      ValueError ("Network error connecting to Azure DevOps: " +:+ msg)
  | _ => e
  end.

(** A field of an element of the [value] array, if the element is an
    object that has it. *)
Definition field (pr_data : json) (key : string) : option json :=
  match pr_data with
  | JObj m => m !! key
  | _ => None
  end.

(** The fields that [get_pull_requests] reads without a default. *)
Definition mandatory_fields : list string :=
  ["pullRequestId"; "title"; "status"; "creationDate"; "sourceRefName";
   "targetRefName"].

Definition lacks_mandatory_field (pr_data : json) : Prop :=
  (exists key, key ∈ mandatory_fields /\ field pr_data key = None)
  \/ field pr_data "repository" ≫= (fun r => field r "id") = None.

Definition request_of (self : azure_client.AzureDevOpsClient)
    (project repository status : string) : azure_client.Request :=
  azure_client.mkRequest
    (azure_client.pull_requests_url self project repository)
    (azure_client.query_params status).

(** The organization that the first construction of the client takes:
    the detected one, else the configured one. *)
Definition first_organization (repo_info : option git_detector.RepoInfo)
    (settings : config.Settings) : option string :=
  match repo_info with
  | Some info => Some (git_detector.organization info)
  | None => config.ado_organization settings
  end.

(** ** Instances and data for running the model *)

(** The library takes every bracketed host for a valid IP literal, and
    finds no forbidden character in the NFKC form of a host. *)
Definition lenient_urllib : UrlLib :=
  {| _check_bracketed_netloc := fun _ => Ok tt;
     _checknetloc_nfkc := fun _ => Ok tt |}.

(** A stand-in for pydantic: a string is accepted for a string field, an
    integer for an integer field and, as seconds since the epoch, for a
    date; the dump of a list is a constant text. *)
Definition plain_pydantic : models.Pydantic :=
  {| models.validate_str := fun v => match v with JStr s => Some s | _ => None end;
     models.validate_int := fun v => match v with JInt z => Some z | _ => None end;
     models.validate_datetime :=
       fun v => match v with
                | JInt z => Some (mkDatetime (z * 1000000) (Some 0))
                | _ => None
                end;
     models.model_dump_json := fun _ => "{...}" |}.

Definition mock_pr_data : json :=
  JObj (list_to_map
    [ ("pullRequestId", JInt 123);
      ("title", JStr "Test PR");
      ("description", JStr "Test description");
      ("status", JStr "active");
      ("creationDate", JInt 1704067200);
      ("createdBy", JObj (list_to_map
         [ ("displayName", JStr "John Doe");
           ("uniqueName", JStr "john@example.com");
           ("id", JStr "user-id-123") ]));
      ("sourceRefName", JStr "refs/heads/feature");
      ("targetRefName", JStr "refs/heads/main");
      ("url", JStr "https://dev.azure.com/testorg/testproj/_git/testrepo/pullrequest/123");
      ("repository", JObj (list_to_map [ ("id", JStr "repo-id-456") ])) ]).

(** [mock_pr_data] without its title *)
Definition untitled_pr_data : json :=
  match mock_pr_data with
  | JObj m => JObj (delete "title" m)
  | v => v
  end.

Definition ok_response (data : json) : Response :=
  {| status_code := 200; body_json := Some data |}.

Definition network_answering (r : result Response) : azure_client.Network :=
  {| azure_client.reply := fun _ => r; azure_client.sent := [] |}.

Definition test_settings : config.Settings :=
  {| config.azure_devops_pat := "fake_pat_token";
     config.ado_organization := Some "configured";
     config.ado_project := None;
     config.ado_repository := None;
     config.mcp_transport := "stdio";
     config.mcp_log_level := "INFO" |}.

(** A fresh process whose [git] tool always gives [run] and whose requests
    are all answered with [r]. *)
Definition fresh_world (run : result string) (r : result Response)
  : resources.World :=
  {| resources.settings :=
       {| config.environ := Ok test_settings; config._settings := None |};
     resources.git :=
       {| git_detector.run_outcome := fun _ => run;
          git_detector.run_calls := 0 |};
     resources.network := network_answering r;
     resources._ado_client := None |}.

Definition test_client : azure_client.AzureDevOpsClient :=
  azure_client.__init__ "testorg" "fake_pat_token".

(** The list that [mock_pr_data] is mapped to under [plain_pydantic]. *)
Definition mock_pr_list : models.PullRequestList :=
  {| models.pull_requests :=
       [models.mkPullRequest 123 "Test PR" (Some "Test description") "active"
          (mkDatetime 1704067200000000 (Some 0))
          (models.mkPullRequestAuthor "John Doe" "john@example.com"
             "user-id-123")
          "refs/heads/feature" "refs/heads/main"
          "https://dev.azure.com/testorg/testproj/_git/testrepo/pullrequest/123"
          "repo-id-456"];
     models.count := 1 |}.

(** A process whose client exists already, outside of any clone. *)
Definition later_world : resources.World :=
  {| resources.settings :=
       {| config.environ := Ok test_settings;
          config._settings := Some test_settings |};
     resources.git :=
       {| git_detector.run_outcome := fun _ => Raise (CalledProcessError 1);
          git_detector.run_calls := 1 |};
     resources.network := network_answering (Ok (ok_response (JObj ∅)));
     resources._ado_client := Some test_client |}.

(** A remote of the modern form, as [git] prints it. *)
Definition detected_remote : string :=
  "https://dev.azure.com/detected/proj/_git/repo" +:+ String pyjson.newline "".

(** ** More data and vocabulary *)

(** The record that [mock_pr_data] is mapped to under [plain_pydantic]. *)
Definition mock_pr : models.PullRequest :=
  models.mkPullRequest 123 "Test PR" (Some "Test description") "active"
    (mkDatetime 1704067200000000 (Some 0))
    (models.mkPullRequestAuthor "John Doe" "john@example.com" "user-id-123")
    "refs/heads/feature" "refs/heads/main"
    "https://dev.azure.com/testorg/testproj/_git/testrepo/pullrequest/123"
    "repo-id-456".

(** An element with the mandatory fields only, and its record. *)
Definition bare_pr_data : json :=
  JObj (list_to_map
    [ ("pullRequestId", JInt 7);
      ("title", JStr "Bare");
      ("status", JStr "active");
      ("creationDate", JInt 0);
      ("sourceRefName", JStr "refs/heads/topic");
      ("targetRefName", JStr "refs/heads/main");
      ("repository", JObj (list_to_map [ ("id", JStr "repo-id") ])) ]).

Definition bare_pr : models.PullRequest :=
  models.mkPullRequest 7 "Bare" None "active" (mkDatetime 0 (Some 0))
    (models.mkPullRequestAuthor "Unknown" "" "")
    "refs/heads/topic" "refs/heads/main" "" "repo-id".

(** The message of the error raised when no organization is known. *)
Definition no_organization_message : string :=
  "No organization found. Set ADO_ORGANIZATION environment variable or run from an Azure DevOps git repository".

(** A fresh process outside of any clone, with no organization
    configured. *)
Definition unconfigured_world : resources.World :=
  {| resources.settings :=
       {| config.environ :=
            Ok (config.mkSettings "fake_pat_token" None None None "stdio"
                  "INFO");
          config._settings := None |};
     resources.git :=
       {| git_detector.run_outcome := fun _ => Raise (CalledProcessError 128);
          git_detector.run_calls := 0 |};
     resources.network := network_answering (Ok (ok_response (JObj ∅)));
     resources._ado_client := None |}.

(** A process inside a clone, whose client exists and whose [git] has run
    once already. *)
Definition detected_later_world : resources.World :=
  {| resources.settings :=
       {| config.environ := Ok test_settings;
          config._settings := Some test_settings |};
     resources.git :=
       {| git_detector.run_outcome := fun _ => Ok detected_remote;
          git_detector.run_calls := 1 |};
     resources.network := network_answering (Ok (ok_response (JObj ∅)));
     resources._ado_client := Some test_client |}.

(** The [git] tool after one more run. *)
Definition ran (g : git_detector.Subprocess) : git_detector.Subprocess :=
  {| git_detector.run_outcome := git_detector.run_outcome g;
     git_detector.run_calls := S (git_detector.run_calls g) |}.

(** The text [s] starts with [/{org}/{proj}/_git/{repo}]: three non-empty
    slash-free segments, the last running to the next slash or to the
    end. *)
Definition modern_shape (s org proj repo : string) : Prop :=
  segment "/" org /\ segment "/" proj /\ segment "/" repo /\
  exists rest,
    s = "/" +:+ org +:+ "/" +:+ proj +:+ "/_git/" +:+ repo +:+ rest
    /\ (rest = "" \/ exists rest', rest = String "/" rest').

(** A fresh process inside a clone, whose credential is missing. *)
Definition uncredentialed_clone : resources.World :=
  {| resources.settings :=
       {| config.environ := Raise (ValidationError "Settings");
          config._settings := None |};
     resources.git :=
       {| git_detector.run_outcome := fun _ => Ok detected_remote;
          git_detector.run_calls := 0 |};
     resources.network := network_answering (Ok (ok_response (JObj ∅)));
     resources._ado_client := None |}.

(** * Properties *)

(** ** Strings *)

#[local] Arguments String.append !_ _ / : simpl nomatch.

Lemma append_assoc (a b c : string) : (a +:+ b) +:+ c = a +:+ (b +:+ c).
Proof. induction a as [|x a IH]; simpl; [done | by rewrite IH]. Qed.

Lemma append_empty_r (a : string) : a +:+ "" = a.
Proof. induction a as [|x a IH]; simpl; congruence. Qed.

Lemma prefix_append (sub post : string) : String.prefix sub (sub +:+ post) = true.
Proof.
  induction sub as [|x sub IH]; simpl; [by destruct post |].
  destruct (ascii_dec x x); [done | congruence].
Qed.

Lemma prefix_inv (sub s : string) :
  String.prefix sub s = true -> exists post, s = sub +:+ post.
Proof.
  revert s. induction sub as [|x sub IH]; intros s Hp.
  - by exists s.
  - destruct s as [|y s]; simpl in Hp; [done |].
    destruct (ascii_dec x y) as [->|]; [| done].
    destruct (IH _ Hp) as [post ->]. by exists post.
Qed.

Lemma contains_eq (sub s : string) :
  pystr.contains sub s
  = (String.prefix sub s
     || match s with
        | EmptyString => false
        | String _ s' => pystr.contains sub s'
        end)%bool.
Proof. by destruct s. Qed.

(** [sub in s] holds exactly when [sub] occurs in [s], character for
    character. *)
Lemma contains_spec (sub s : string) :
  pystr.contains sub s = true <-> exists pre post, s = pre +:+ sub +:+ post.
Proof.
  split.
  - induction s as [|x s IH]; rewrite contains_eq; intros Hc;
      apply orb_true_iff in Hc as [Hp | Hc]; try done.
    + destruct (prefix_inv _ _ Hp) as [post E]. by exists "", post.
    + destruct (prefix_inv _ _ Hp) as [post E]. by exists "", post.
    + destruct (IH Hc) as (pre & post & ->). by exists (String x pre), post.
  - intros (pre & post & ->). induction pre as [|x pre IH].
    + rewrite contains_eq. change ("" +:+ sub +:+ post) with (sub +:+ post).
      by rewrite prefix_append.
    + change (String x pre +:+ sub +:+ post)
        with (String x (pre +:+ sub +:+ post)).
      rewrite contains_eq, IH. by rewrite orb_true_r.
Qed.

(** Appends to the right, literal prefixes unfolded. *)
Ltac str_norm :=
  simpl; repeat (progress (rewrite ?append_assoc, ?append_empty_r; simpl)).

(** ** The matcher *)

Lemma group_sound c k s g gs :
  re.group c k s = Some (g, gs) ->
  exists rest, s = g +:+ rest /\ segment c g /\ k rest = Some gs.
Proof.
  revert g gs. induction s as [|x s IH]; simpl; intros g gs Hg; [done |].
  destruct (Ascii.eqb x c) eqn:Hx; [done |].
  destruct (re.group c k s) as [[g' gs']|] eqn:Hrec.
  - injection Hg as <- <-.
    destruct (IH _ _ eq_refl) as (rest & -> & [_ Hno] & Hk).
    exists rest. repeat split; [done | | done].
    simpl. by rewrite Hx.
  - destruct (k s) as [gs'|] eqn:Hk; [| done].
    injection Hg as <- <-. exists s. repeat split; [done | | done].
    simpl. by rewrite Hx.
Qed.

Lemma match_here_sound p s gs :
  re.match_here p s = Some gs ->
  exists rest, s = instance_of p gs +:+ rest /\ captures p gs.
Proof.
  revert s gs. induction p as [|[c|c] p IH]; simpl; intros s gs Hm.
  - injection Hm as <-. by exists s.
  - destruct s as [|x s]; [done |].
    destruct (Ascii.eqb x c) eqn:Hx; [| done].
    apply Ascii.eqb_eq in Hx as ->.
    destruct (IH _ _ Hm) as (rest & -> & Hc). by exists rest.
  - destruct (re.group c (re.match_here p) s) as [[g gs']|] eqn:Hg; [| done].
    injection Hm as <-.
    destruct (group_sound _ _ _ _ _ Hg) as (rest & -> & Hseg & Hk).
    destruct (IH _ _ Hk) as (rest' & -> & Hc).
    exists rest'. split; [simpl; by rewrite append_assoc | done].
Qed.

Lemma search_sound p s gs :
  re.search p s = Some gs ->
  exists pre rest, s = pre +:+ instance_of p gs +:+ rest /\ captures p gs.
Proof.
  induction s as [|x s IH]; simpl; intros Hs.
  - destruct (re.match_here p "") eqn:Hm; [| done].
    injection Hs as ->.
    destruct (match_here_sound _ _ _ Hm) as (rest & E & Hc).
    by exists "", rest.
  - destruct (re.match_here p (String x s)) eqn:Hm.
    + injection Hs as ->.
      destruct (match_here_sound _ _ _ Hm) as (rest & E & Hc).
      by exists "", rest.
    + destruct (IH Hs) as (pre & rest & -> & Hc).
      by exists (String x pre), rest.
Qed.

(** A greedy group takes a whole segment when the text stops there, or
    goes on with the excluded character, and the rest of the pattern
    matches from there. *)
Lemma group_complete c k g rest gs :
  segment c g ->
  (rest = "" \/ exists rest', rest = String c rest') ->
  k rest = Some gs ->
  re.group c k (g +:+ rest) = Some (g, gs).
Proof.
  intros [Hne Hno] Hrest Hk.
  assert (Hstop : re.group c k rest = None).
  { destruct Hrest as [-> | [rest' ->]]; simpl; [done |].
    by rewrite Ascii.eqb_refl. }
  induction g as [|x g IH]; [done |].
  simpl in Hno. apply orb_false_iff in Hno as [Hx Hno].
  simpl. rewrite Hx. destruct g as [|y g].
  - simpl. by rewrite Hstop, Hk.
  - rewrite IH; [done | done | done].
Qed.

Lemma search_of_match p s gs :
  re.match_here p s = Some gs -> re.search p s = Some gs.
Proof. intros Hm. destruct s; simpl; by rewrite Hm. Qed.

(** ** The URL parser *)

#[local] Arguments re.search : simpl never.
#[local] Arguments re.match_ : simpl never.
#[local] Arguments pystr.contains : simpl never.

Section parser.
Context `{UrlLib}.

Lemma modern_instance g1 g2 g3 rest :
  instance_of git_detector.modern_pattern [g1; g2; g3] +:+ rest
  = "/" +:+ g1 +:+ "/" +:+ g2 +:+ "/_git/" +:+ g3 +:+ rest.
Proof. by str_norm. Qed.

Lemma legacy_instance g1 g2 rest :
  instance_of git_detector.legacy_pattern [g1; g2] +:+ rest
  = "/" +:+ g1 +:+ "/_git/" +:+ g2 +:+ rest.
Proof. by str_norm. Qed.

Lemma legacy_host_instance org rest :
  instance_of git_detector.legacy_host_pattern [org] +:+ rest
  = org +:+ ".visualstudio.com" +:+ rest.
Proof. by str_norm. Qed.

(** The two ways in which the parser returns a repository. *)
Lemma parse_inv git_url info :
  git_detector.parse_azure_devops_url git_url = Ok (Some info) ->
  exists parsed,
    urllib.urlparse git_url = Ok parsed /\
    let org := git_detector.organization info in
    let proj := git_detector.project info in
    let repo := git_detector.repository info in
    ((pystr.contains "dev.azure.com" (urllib.netloc parsed) = true /\
      re.search git_detector.modern_pattern (urllib.path parsed)
      = Some [org; proj; repo])
     \/
     (pystr.contains "dev.azure.com" (urllib.netloc parsed) = false /\
      pystr.contains "visualstudio.com" (urllib.netloc parsed) = true /\
      re.match_ git_detector.legacy_host_pattern (urllib.netloc parsed)
      = Some [org] /\
      re.search git_detector.legacy_pattern (urllib.path parsed)
      = Some [proj; repo])).
Proof.
  unfold git_detector.parse_azure_devops_url. intros Hp.
  destruct (urllib.urlparse git_url) as [parsed|e] eqn:Hu; [| done].
  exists parsed. split; [done |]. cbn in Hp.
  destruct (pystr.contains "dev.azure.com" _) eqn:Hm.
  - left. split; [done |].
    destruct (re.search _ _) as [[|g1 [|g2 [|g3 [|]]]]|]; try done.
    by inv Hp.
  - destruct (pystr.contains "visualstudio.com" _) eqn:Hl; [| done].
    right. split; [done |]. split; [done |].
    destruct (re.match_ _ _) as [[|org [|]]|]; try done.
    destruct (re.search _ _) as [[|g1 [|g2 [|]]]|]; try done.
    by inv Hp.
Qed.

Lemma match_modern org proj repo rest :
  segment "/" org -> segment "/" proj -> segment "/" repo ->
  (rest = "" \/ exists rest', rest = String "/" rest') ->
  re.match_here git_detector.modern_pattern
    ("/" +:+ org +:+ "/" +:+ proj +:+ "/_git/" +:+ repo +:+ rest)
  = Some [org; proj; repo].
Proof.
  intros Ho Hp Hr Hrest. cbn.
  rewrite (group_complete "/" _ org _ [proj; repo]); [done | done | eauto |].
  cbn.
  rewrite (group_complete "/" _ proj _ [repo]); [done | done | eauto |].
  cbn.
  by rewrite (group_complete "/" _ repo _ []).
Qed.

Lemma parse_modern_root git_url parsed org proj repo rest :
  urllib.urlparse git_url = Ok parsed ->
  pystr.contains "dev.azure.com" (urllib.netloc parsed) = true ->
  urllib.path parsed
  = "/" +:+ org +:+ "/" +:+ proj +:+ "/_git/" +:+ repo +:+ rest ->
  segment "/" org -> segment "/" proj -> segment "/" repo ->
  (rest = "" \/ exists rest', rest = String "/" rest') ->
  git_detector.parse_azure_devops_url git_url
  = Ok (Some (git_detector.mkRepoInfo org proj repo)).
Proof.
  intros Hu Hm Hpath Ho Hp Hr Hrest.
  pose proof (search_of_match _ _ _
                (match_modern org proj repo rest Ho Hp Hr Hrest)) as Hs.
  rewrite <- Hpath in Hs.
  unfold git_detector.parse_azure_devops_url. rewrite Hu.
  unfold mbind, result_bind, rbind. by rewrite Hm, Hs.
Qed.

Lemma has_append c a b :
  pystr.has c (a +:+ b) = (pystr.has c a || pystr.has c b)%bool.
Proof.
  induction a as [|x a IH]; simpl; [done |]. by rewrite IH, orb_assoc.
Qed.

Lemma all_append p a b :
  pystr.all p (a +:+ b) = (pystr.all p a && pystr.all p b)%bool.
Proof.
  induction a as [|x a IH]; simpl; [done |]. by rewrite IH, andb_assoc.
Qed.

Lemma find_absent c s : pystr.has c s = false -> pystr.find c s = None.
Proof.
  induction s as [|x s IH]; simpl; [done |]. intros Hh.
  apply orb_false_iff in Hh as [-> Hh]. by rewrite (IH Hh).
Qed.

Lemma path_char_has c s :
  pystr.all path_char s = true -> path_char c = false -> pystr.has c s = false.
Proof.
  intros Hall Hc. induction s as [|x s IH]; simpl; [done |].
  simpl in Hall. apply andb_true_iff in Hall as [Hx Hall].
  rewrite (IH Hall), orb_false_r. apply Ascii.eqb_neq. intros ->. congruence.
Qed.

Lemma path_char_kept s :
  pystr.all path_char s = true -> pystr.remove urllib.unsafe_url_byte s = s.
Proof.
  induction s as [|x s IH]; simpl; [done |]. intros Hall.
  apply andb_true_iff in Hall as [Hx Hall]. rewrite (IH Hall).
  unfold path_char in Hx. apply negb_true_iff, orb_false_iff in Hx as [_ ->].
  done.
Qed.

Lemma lstrip_modern tail :
  pystr.lstrip urllib.c0_control_or_space ("https://dev.azure.com/" +:+ tail)
  = "https://dev.azure.com/" +:+ tail.
Proof. reflexivity. Qed.

Lemma remove_modern tail :
  pystr.all path_char tail = true ->
  pystr.remove urllib.unsafe_url_byte ("https://dev.azure.com/" +:+ tail)
  = "https://dev.azure.com/" +:+ tail.
Proof.
  intros Hall.
  transitivity ("https://dev.azure.com/"
                +:+ pystr.remove urllib.unsafe_url_byte tail);
    [reflexivity | by rewrite (path_char_kept _ Hall)].
Qed.

Lemma split_scheme_modern tail :
  urllib.split_scheme ("https://dev.azure.com/" +:+ tail)
  = ("https", "//dev.azure.com/" +:+ tail).
Proof. reflexivity. Qed.

Lemma length_append a b :
  String.length (a +:+ b) = (String.length a + String.length b)%nat.
Proof. induction a as [|x a IH]; simpl; [done | by rewrite IH]. Qed.

Lemma splitnetloc_modern tail :
  pystr.all path_char tail = true ->
  urllib._splitnetloc ("//dev.azure.com/" +:+ tail) 2
  = ("dev.azure.com", "/" +:+ tail).
Proof.
  intros Hall.
  pose proof (path_char_has "?" _ Hall eq_refl) as Hq.
  pose proof (path_char_has "#" _ Hall eq_refl) as Hf.
  unfold urllib._splitnetloc, pystr.find_from.
  replace (pystr.drop 2 ("//dev.azure.com/" +:+ tail))
    with ("dev.azure.com/" +:+ tail) by reflexivity.
  replace (pystr.find "/" ("dev.azure.com/" +:+ tail)) with (Some 13%nat)
    by reflexivity.
  rewrite !find_absent by (by rewrite has_append, ?Hq, ?Hf).
  rewrite length_append.
  replace (urllib.min_opt _ _) with 15%nat
    by (unfold urllib.min_opt; simpl; lia).
  reflexivity.
Qed.

Lemma split1_absent c s :
  pystr.has c s = false -> pystr.split1 c s = (s, "").
Proof. intros Hh. unfold pystr.split1. by rewrite (find_absent _ _ Hh). Qed.

(** What [urlparse] makes of an [https] URL on the modern host whose path
    has only path characters. *)
Lemma urlparse_modern_https tail :
  pystr.all path_char tail = true ->
  urllib.urlparse ("https://dev.azure.com/" +:+ tail)
  = Ok (urllib.mkParseResult "https" "dev.azure.com" ("/" +:+ tail) "" "" "").
Proof.
  intros Hall.
  pose proof (path_char_has "?" _ Hall eq_refl) as Hq.
  pose proof (path_char_has "#" _ Hall eq_refl) as Hf.
  pose proof (path_char_has ";" _ Hall eq_refl) as Hp.
  unfold urllib.urlparse, urllib.urlsplit.
  rewrite lstrip_modern. rewrite (remove_modern _ Hall). rewrite split_scheme_modern.
  cbv beta iota.
  replace (String.eqb (pystr.take 2 ("//dev.azure.com/" +:+ tail)) "//")
    with true by reflexivity.
  rewrite (splitnetloc_modern _ Hall). simpl.
  rewrite !split1_absent by (simpl; by rewrite ?Hq, ?Hf).
  simpl. by rewrite Hp.
Qed.

(** The URLs of the form [https://dev.azure.com/{org}/{proj}/_git/{repo}]
    parse to their triple. *)
Lemma parse_modern_https org proj repo :
  segment "/" org -> segment "/" proj -> segment "/" repo ->
  pystr.all path_char org = true -> pystr.all path_char proj = true ->
  pystr.all path_char repo = true ->
  git_detector.parse_azure_devops_url
    ("https://dev.azure.com/" +:+ org +:+ "/" +:+ proj +:+ "/_git/" +:+ repo)
  = Ok (Some (git_detector.mkRepoInfo org proj repo)).
Proof.
  intros Ho Hp Hr Hco Hcp Hcr.
  assert (Hall : pystr.all path_char
                   (org +:+ "/" +:+ proj +:+ "/_git/" +:+ repo) = true).
  { by rewrite !all_append, Hco, Hcp, Hcr. }
  apply (parse_modern_root _ _ org proj repo "" (urlparse_modern_https _ Hall));
    try done; [by rewrite append_empty_r | by left].
Qed.

End parser.

(** C3, evaluated at a failing input: the parser has no handler around
    [urlparse], and [urlparse] raises [ValueError] on a host with an
    opening bracket and no closing one.  On such a remote URL
    [parse_azure_devops_url] raises instead of returning [None], whatever
    the library's check of bracketed hosts. *)
Theorem parse_azure_devops_url_raises `{UrlLib} :
  git_detector.parse_azure_devops_url
    "https://[dev.azure.com/myorg/MyProject/_git/MyRepo"
  = Raise (ValueError "Invalid IPv6 URL").
Proof. reflexivity. Qed.

(** C2, as stated, fails: a host that spells the marker in upper case is
    not recognized, while the same URL with the marker in lower case is. *)
Lemma uppercase_host_not_recognized :
  @git_detector.parse_azure_devops_url lenient_urllib
    "https://DEV.AZURE.COM/myorg/MyProject/_git/MyRepo" = Ok None
  /\ @git_detector.parse_azure_devops_url lenient_urllib
       "https://dev.azure.com/myorg/MyProject/_git/MyRepo"
     = Ok (Some (git_detector.mkRepoInfo "myorg" "MyProject" "MyRepo")).
Proof. split; reflexivity. Qed.

(** C2, amended: the host markers are matched case-sensitively.  Whenever
    the parser returns a repository, the netloc of the URL contains
    ["dev.azure.com"] or ["visualstudio.com"] spelled exactly so, and the
    organization, project and repository returned are pieces of the parsed
    path (for the legacy organization, of the netloc) taken as they are
    written. *)
Theorem host_markers_matched_as_written `{UrlLib}
    (git_url : string) (info : git_detector.RepoInfo) :
  git_detector.parse_azure_devops_url git_url = Ok (Some info) ->
  exists parsed,
    urllib.urlparse git_url = Ok parsed /\
    let org := git_detector.organization info in
    let proj := git_detector.project info in
    let repo := git_detector.repository info in
    (((exists a b, urllib.netloc parsed = a +:+ "dev.azure.com" +:+ b) /\
      (exists pre rest,
         urllib.path parsed
         = pre +:+ "/" +:+ org +:+ "/" +:+ proj +:+ "/_git/" +:+ repo +:+ rest))
     \/
     ((exists a b, urllib.netloc parsed = a +:+ "visualstudio.com" +:+ b) /\
      (exists rest,
         urllib.netloc parsed = org +:+ ".visualstudio.com" +:+ rest) /\
      (exists pre rest,
         urllib.path parsed
         = pre +:+ "/" +:+ proj +:+ "/_git/" +:+ repo +:+ rest))).
Proof.
  intros Hp. destruct (parse_inv _ _ Hp) as (parsed & Hu & Hcases).
  exists parsed. split; [done |]. cbv zeta in *.
  destruct Hcases as [[Hm Hs] | (_ & Hl & Hh & Hs)].
  - left. split; [by apply contains_spec |].
    destruct (search_sound _ _ _ Hs) as (pre & rest & E & _).
    exists pre, rest. by rewrite E, modern_instance.
  - right. split; [by apply contains_spec |]. split.
    + destruct (match_here_sound _ _ _ Hh) as (rest & E & _).
      exists rest. by rewrite E, legacy_host_instance.
    + destruct (search_sound _ _ _ Hs) as (pre & rest & E & _).
      exists pre, rest. by rewrite E, legacy_instance.
Qed.

Lemma host_markers_matched_as_written_witness :
  exists parsed,
    @urllib.urlparse lenient_urllib
      "https://myorg.visualstudio.com/MyProject/_git/MyRepo" = Ok parsed /\
    (((exists a b, urllib.netloc parsed = a +:+ "dev.azure.com" +:+ b) /\
      (exists pre rest,
         urllib.path parsed
         = pre +:+ "/" +:+ "myorg" +:+ "/" +:+ "MyProject" +:+ "/_git/"
           +:+ "MyRepo" +:+ rest))
     \/
     ((exists a b, urllib.netloc parsed = a +:+ "visualstudio.com" +:+ b) /\
      (exists rest,
         urllib.netloc parsed = "myorg" +:+ ".visualstudio.com" +:+ rest) /\
      (exists pre rest,
         urllib.path parsed
         = pre +:+ "/" +:+ "MyProject" +:+ "/_git/" +:+ "MyRepo" +:+ rest))).
Proof.
  exact (@host_markers_matched_as_written lenient_urllib
           "https://myorg.visualstudio.com/MyProject/_git/MyRepo"
           (git_detector.mkRepoInfo "myorg" "MyProject" "MyRepo") eq_refl).
Defined.

(** A group stops where it cannot be extended. *)
Lemma group_stops c k s g gs :
  re.group c k s = Some (g, gs) ->
  exists rest,
    s = g +:+ rest /\ segment c g /\ k rest = Some gs
    /\ re.group c k rest = None.
Proof.
  revert g gs. induction s as [|x s IH]; simpl; intros g gs Hg; [done |].
  destruct (Ascii.eqb x c) eqn:Hx; [done |].
  destruct (re.group c k s) as [[g' gs']|] eqn:Hrec.
  - inv Hg. destruct (IH _ _ eq_refl) as (rest & -> & [_ Hno] & Hk & Hstop).
    exists rest. repeat split; try done. simpl. by rewrite Hx.
  - destruct (k s) as [gs'|] eqn:Hk; [| done]. inv Hg.
    exists s. repeat split; try done. simpl. by rewrite Hx.
Qed.

Lemma group_of_total c k rest :
  (forall t, k t <> None) ->
  re.group c k rest = None ->
  rest = "" \/ exists rest', rest = String c rest'.
Proof.
  intros Hk Hnone. destruct rest as [|x rest]; [by left |]. right.
  simpl in Hnone. destruct (Ascii.eqb x c) eqn:Hx.
  - apply Ascii.eqb_eq in Hx as ->. by eexists.
  - destruct (re.group c k rest) as [[? ?]|]; [done |].
    destruct (k rest) eqn:Hkr; [done | by destruct (Hk rest)].
Qed.

Lemma match_lit_inv c p s gs :
  re.match_here (re.Lit c :: p) s = Some gs ->
  exists s', s = String c s' /\ re.match_here p s' = Some gs.
Proof.
  simpl. destruct s as [|x s]; [done |].
  destruct (Ascii.eqb x c) eqn:Hx; [| done].
  apply Ascii.eqb_eq in Hx as ->. by exists s.
Qed.

Lemma match_group_inv c p s gs :
  re.match_here (re.Group c :: p) s = Some gs ->
  exists g gs' rest,
    gs = g :: gs' /\ s = g +:+ rest /\ segment c g
    /\ re.match_here p rest = Some gs'
    /\ re.group c (re.match_here p) rest = None.
Proof.
  simpl. destruct (re.group c (re.match_here p) s) as [[g gs']|] eqn:Hg;
    [| done].
  intros [= <-]. destruct (group_stops _ _ _ _ _ Hg) as (rest & ? & ? & ? & ?).
  by exists g, gs', rest.
Qed.

(** The modern pattern matches at the start of a text exactly when the
    text has the modern shape there, and the groups are its segments. *)
Lemma match_modern_inv s gs :
  re.match_here git_detector.modern_pattern s = Some gs ->
  exists org proj repo, gs = [org; proj; repo] /\ modern_shape s org proj repo.
Proof.
  unfold git_detector.modern_pattern. cbn [app re.lits]. intros Hm.
  apply match_lit_inv in Hm as (s1 & -> & Hm).
  apply match_group_inv in Hm as (org & gs1 & r1 & -> & -> & Ho & Hm & _).
  apply match_lit_inv in Hm as (s2 & -> & Hm).
  apply match_group_inv in Hm as (proj & gs2 & r2 & -> & -> & Hp & Hm & _).
  do 6 (apply match_lit_inv in Hm as (? & -> & Hm)).
  apply match_group_inv in Hm as (repo & gs3 & rest & -> & -> & Hr & Hm & Hstop).
  simpl in Hm. inv Hm.
  exists org, proj, repo. split; [done |]. repeat split; try apply Ho;
    try apply Hp; try apply Hr.
  exists rest. split; [done |].
  by apply (group_of_total "/" (re.match_here [])).
Qed.

Lemma match_modern_shape s org proj repo :
  modern_shape s org proj repo ->
  re.match_here git_detector.modern_pattern s = Some [org; proj; repo].
Proof.
  intros (Ho & Hp & Hr & rest & -> & Hrest). by apply match_modern.
Qed.

Lemma match_modern_none s :
  re.match_here git_detector.modern_pattern s = None <->
  forall org proj repo, ~ modern_shape s org proj repo.
Proof.
  split.
  - intros Hnone org proj repo Hshape.
    by rewrite (match_modern_shape _ _ _ _ Hshape) in Hnone.
  - intros Hno. destruct (re.match_here _ s) as [gs|] eqn:Hm; [| done].
    destruct (match_modern_inv _ _ Hm) as (o & p & r & _ & Hshape).
    by destruct (Hno o p r).
Qed.

(** [re.search] returns the match at the leftmost position that has
    one. *)
Lemma search_leftmost p s gs :
  re.search p s = Some gs <->
  exists pre tail,
    s = pre +:+ tail /\ re.match_here p tail = Some gs
    /\ forall pre1 pre2,
         pre = pre1 +:+ pre2 -> pre2 <> "" ->
         re.match_here p (pre2 +:+ tail) = None.
Proof.
  split.
  - induction s as [|x s IH]; intros Hs.
    + exists "", "". unfold re.search in Hs.
      destruct (re.match_here p "") eqn:Hm; [| done].
      injection Hs as ->.
      split; [done |]. split; [done |]. by intros [|] [|].
    + unfold re.search in Hs. fold re.search in Hs.
      destruct (re.match_here p (String x s)) as [gs'|] eqn:Hm.
      * injection Hs as ->. exists "", (String x s).
        split; [done |]. split; [done |]. by intros [|] [|].
      * destruct (IH Hs) as (pre & tail & -> & Ht & Hleft).
        exists (String x pre), tail. split; [done |]. split; [done |].
        intros [|y pre1] pre2 Hpre Hne; simpl in Hpre.
        -- by subst pre2.
        -- inv Hpre. by apply (Hleft pre1).
  - intros (pre & tail & -> & Ht & Hleft).
    induction pre as [|x pre IH].
    + by apply search_of_match.
    + change (String x pre +:+ tail) with (String x (pre +:+ tail)).
      unfold re.search. fold re.search.
      pose proof (Hleft "" (String x pre) eq_refl ltac:(done)) as Hx.
      change (String x pre +:+ tail) with (String x (pre +:+ tail)) in Hx.
      rewrite Hx. apply IH. intros pre1 pre2 -> Hne. by apply (Hleft (String x pre1)).
Qed.

(** C4, as stated, fails in its second half: the pattern is searched for
    in the whole path, so a path with a segment before the organization is
    matched at an interior position. *)
Lemma modern_match_at_interior_position :
  urllib.path <$> @urllib.urlparse lenient_urllib
    "https://dev.azure.com/x/myorg/MyProject/_git/MyRepo"
  = Ok "/x/myorg/MyProject/_git/MyRepo"
  /\ @git_detector.parse_azure_devops_url lenient_urllib
       "https://dev.azure.com/x/myorg/MyProject/_git/MyRepo"
     = Ok (Some (git_detector.mkRepoInfo "myorg" "MyProject" "MyRepo"))
  /\ String.prefix "/myorg/MyProject/_git/MyRepo"
       "/x/myorg/MyProject/_git/MyRepo" = false.
Proof. repeat split; reflexivity. Qed.

(** C4, amended: for every URL whose netloc contains the modern host and
    whose path is [/{org}/{proj}/_git/{repo}], alone or followed by further
    segments, with non-empty slash-free [org], [proj] and [repo], parsing
    yields exactly that triple, as written.  The pattern is searched for
    in the whole path: the triple returned for a modern host is the one at
    the leftmost position of the path that has the shape
    [/{org}/{proj}/_git/{repo}], which need not be the root, and a path
    with the shape at some position parses to the triple of its leftmost
    such position. *)
Theorem modern_url_parses_to_its_triple `{UrlLib}
    (git_url : string) (parsed : urllib.ParseResult) :
  urllib.urlparse git_url = Ok parsed ->
  pystr.contains "dev.azure.com" (urllib.netloc parsed) = true ->
  (forall org proj repo rest,
     urllib.path parsed
     = "/" +:+ org +:+ "/" +:+ proj +:+ "/_git/" +:+ repo +:+ rest ->
     segment "/" org -> segment "/" proj -> segment "/" repo ->
     (rest = "" \/ exists rest', rest = String "/" rest') ->
     git_detector.parse_azure_devops_url git_url
     = Ok (Some (git_detector.mkRepoInfo org proj repo)))
  /\
  (forall info,
     git_detector.parse_azure_devops_url git_url = Ok (Some info) ->
     exists pre tail,
       urllib.path parsed = pre +:+ tail
       /\ modern_shape tail (git_detector.organization info)
            (git_detector.project info) (git_detector.repository info)
       /\ forall pre1 pre2 org proj repo,
            pre = pre1 +:+ pre2 -> pre2 <> "" ->
            ~ modern_shape (pre2 +:+ tail) org proj repo)
  /\
  (forall pre tail org proj repo,
     urllib.path parsed = pre +:+ tail ->
     modern_shape tail org proj repo ->
     (forall pre1 pre2 org' proj' repo',
        pre = pre1 +:+ pre2 -> pre2 <> "" ->
        ~ modern_shape (pre2 +:+ tail) org' proj' repo') ->
     git_detector.parse_azure_devops_url git_url
     = Ok (Some (git_detector.mkRepoInfo org proj repo))).
Proof.
  intros Hu Hm. split; [| split].
  - intros org proj repo rest. by apply parse_modern_root.
  - intros info Hp. destruct (parse_inv _ _ Hp) as (parsed' & Hu' & Hcases).
    rewrite Hu in Hu'. inv Hu'. cbv zeta in Hcases.
    destruct Hcases as [[_ Hs] | (Hno & _)]; [| congruence].
    apply search_leftmost in Hs as (pre & tail & Hpath & Ht & Hleft).
    exists pre, tail. split; [done |].
    destruct (match_modern_inv _ _ Ht) as (o & p & r & Hgs & Hshape).
    inv Hgs. split; [done |].
    intros pre1 pre2 org proj repo Hpre Hne.
    by apply match_modern_none, (Hleft pre1).
  - intros pre tail org proj repo Hpath Hshape Hleft.
    assert (Hs : re.search git_detector.modern_pattern (urllib.path parsed)
                 = Some [org; proj; repo]).
    { apply search_leftmost. exists pre, tail.
      split; [done |]. split; [by apply match_modern_shape |].
      intros pre1 pre2 Hpre Hne. apply match_modern_none.
      intros o p r. by apply (Hleft pre1). }
    unfold git_detector.parse_azure_devops_url. rewrite Hu.
    unfold mbind, result_bind, rbind. by rewrite Hm, Hs.
Qed.

Lemma modern_url_parses_to_its_triple_witness :
  @git_detector.parse_azure_devops_url lenient_urllib
    "https://dev.azure.com/myorg/MyProject/_git/MyRepo/pullrequest/7"
  = Ok (Some (git_detector.mkRepoInfo "myorg" "MyProject" "MyRepo"))
  /\ (exists pre tail,
        "/myorg/MyProject/_git/MyRepo/pullrequest/7" = pre +:+ tail
        /\ modern_shape tail "myorg" "MyProject" "MyRepo"
        /\ forall pre1 pre2 org proj repo,
             pre = pre1 +:+ pre2 -> pre2 <> "" ->
             ~ modern_shape (pre2 +:+ tail) org proj repo)
  /\ @git_detector.parse_azure_devops_url lenient_urllib
       "https://dev.azure.com/x/myorg/MyProject/_git/MyRepo"
     = Ok (Some (git_detector.mkRepoInfo "myorg" "MyProject" "MyRepo")).
Proof.
  pose proof (@modern_url_parses_to_its_triple lenient_urllib
                "https://dev.azure.com/myorg/MyProject/_git/MyRepo/pullrequest/7"
                (urllib.mkParseResult "https" "dev.azure.com"
                   "/myorg/MyProject/_git/MyRepo/pullrequest/7" "" "" "")
                eq_refl eq_refl) as (Hroot & Hsome & _).
  pose proof (@modern_url_parses_to_its_triple lenient_urllib
                "https://dev.azure.com/x/myorg/MyProject/_git/MyRepo"
                (urllib.mkParseResult "https" "dev.azure.com"
                   "/x/myorg/MyProject/_git/MyRepo" "" "" "")
                eq_refl eq_refl) as (_ & _ & Hinner).
  split; [| split].
  - apply (Hroot "myorg" "MyProject" "MyRepo" "/pullrequest/7" eq_refl);
      [split; [discriminate | reflexivity] ..| right; by eexists].
  - apply (Hsome (git_detector.mkRepoInfo "myorg" "MyProject" "MyRepo")).
    reflexivity.
  - apply (Hinner "/x" "/myorg/MyProject/_git/MyRepo" "myorg" "MyProject"
             "MyRepo" eq_refl).
    + repeat split; try discriminate. exists "". split; [reflexivity | by left].
    + intros pre1 pre2 o p r Hpre Hne Hshape.
      apply match_modern_shape in Hshape.
      destruct pre1 as [|a [|b [|c pre1]]]; simpl in Hpre; simplify_eq;
        try discriminate Hshape; done.
Defined.

(** ** The REST client *)

Section client.
Context `{models.Pydantic}.

(** One call: exactly one request is sent, and the outcome is that of the
    reply, decoded, with its exception translated. *)
Lemma get_pull_requests_run self project repository status n :
  azure_client.get_pull_requests self project repository status n
  = (match azure_client.reply n (request_of self project repository status) ≫= decode with
     | Ok l => Ok l
     | Raise e => Raise (translate project repository e)
     end,
     {| azure_client.reply := azure_client.reply n;
        azure_client.sent :=
          azure_client.sent n ++ [request_of self project repository status] |}).
Proof.
  unfold azure_client.get_pull_requests, mtry, request_of, decode.
  unfold mbind, M_bind, result_bind, rbind, azure_client.client_get, mlift,
    mret, M_ret, mthrow, M_throw, translate.
  repeat case_match; simplify_eq; congruence.
Qed.

Lemma get_pull_requests_sent self project repository status n :
  azure_client.sent
    (azure_client.get_pull_requests self project repository status n).2
  = (azure_client.sent n ++ [request_of self project repository status])%list.
Proof. by rewrite get_pull_requests_run. Qed.

Lemma get_pull_requests_of_reply self project repository status n response :
  azure_client.reply n (request_of self project repository status)
  = Ok response ->
  (azure_client.get_pull_requests self project repository status n).1
  = match decode response with
    | Ok l => Ok l
    | Raise e => Raise (translate project repository e)
    end.
Proof. intros Hr. by rewrite get_pull_requests_run, Hr. Qed.

Lemma decode_success response data :
  azure_client.is_success response = true ->
  body_json response = Some (JObj data) ->
  decode response
  = (items ← py.iter (default (JArr []) (data !! "value"));
     pr_list ← for_each azure_client.pull_request_of items;
     Ok (models.from_pull_requests pr_list)).
Proof.
  intros Hs Hb. unfold decode, azure_client.raise_for_status,
    azure_client.response_json. by rewrite Hs, Hb.
Qed.

Lemma decode_failure response :
  azure_client.is_success response = false ->
  decode response = Raise (HTTPStatusError response).
Proof.
  intros Hs. unfold decode, azure_client.raise_for_status. by rewrite Hs.
Qed.

Lemma for_each_raises {A B} (f : A -> result B) (xs : list A) (x : A) e :
  x ∈ xs -> f x = Raise e -> exists e', for_each f xs = Raise e'.
Proof.
  intros Hin Hx. induction Hin as [x xs | x y xs Hin IH]; simpl.
  - rewrite Hx. by eexists.
  - destruct (f y); [| by eexists].
    destruct (IH Hx) as [e' ->]. by eexists.
Qed.

Lemma getitem_ok m key v :
  py.getitem (JObj m) key = Ok v -> m !! key = Some v.
Proof. simpl. destruct (m !! key); [by intros [= ->] | done]. Qed.

(** An element without one of the mandatory fields makes the loop body
    raise. *)
Lemma pull_request_of_lacking pr_data :
  lacks_mandatory_field pr_data ->
  exists e, azure_client.pull_request_of pr_data = Raise e.
Proof.
  intros Hlack. unfold azure_client.pull_request_of.
  destruct pr_data as [| | | | | |m]; try by eexists.
  repeat match goal with
         | |- exists e, (?r ≫= _) = Raise e =>
             let E := fresh "E" in
             destruct r eqn:E; [cbn [mbind result_bind rbind] | by eexists]
         end.
  exfalso.
  repeat match goal with
         | E : py.getitem (JObj _) _ = Ok _ |- _ => apply getitem_ok in E
         end.
  destruct Hlack as [(key & Hkey & Hnone) | Hnone]; simpl in Hnone.
  - unfold mandatory_fields in Hkey.
    repeat (apply elem_of_cons in Hkey as [-> | Hkey]; [congruence |]).
    by apply elem_of_nil in Hkey.
  - match goal with
    | E : m !! "repository" = Some ?r, E' : py.getitem ?r "id" = Ok _ |- _ =>
        rewrite E in Hnone; destruct r; simpl in Hnone, E'; try done;
        by rewrite Hnone in E'
    end.
Qed.

End client.

(** C8: the request of every call carries no status parameter when the
    filter is ["all"], and carries the filter itself, as given, for every
    other string. *)
Theorem status_filter_sent_verbatim `{models.Pydantic}
    (self : azure_client.AzureDevOpsClient)
    (project repository status : string) (n : azure_client.Network) :
  exists request,
    azure_client.sent
      (azure_client.get_pull_requests self project repository status n).2
    = (azure_client.sent n ++ [request])%list
    /\ azure_client.params request !! "searchCriteria.status"
       = (if bool_decide (status = "all") then None else Some status).
Proof.
  exists (request_of self project repository status).
  split; [apply get_pull_requests_sent |].
  unfold request_of, azure_client.query_params. simpl.
  destruct (decide (status = "all")) as [-> | Hne].
  - done.
  - rewrite (bool_decide_eq_true_2 _ Hne), (bool_decide_eq_false_2 _ Hne).
    apply lookup_insert_eq.
Qed.

(** C7: the count of every list that [get_pull_requests] returns, and of
    every list built by [from_pull_requests], is the number of its
    entries; a response with an empty [value] array gives the empty list
    with count 0. *)
Theorem count_is_number_of_entries `{models.Pydantic}
    (self : azure_client.AzureDevOpsClient)
    (project repository status : string) (n : azure_client.Network) :
  (forall l,
     (azure_client.get_pull_requests self project repository status n).1 = Ok l ->
     models.count l = Z.of_nat (length (models.pull_requests l)))
  /\
  (forall response data,
     azure_client.reply n (request_of self project repository status)
     = Ok response ->
     azure_client.is_success response = true ->
     body_json response = Some (JObj data) ->
     data !! "value" = Some (JArr []) ->
     (azure_client.get_pull_requests self project repository status n).1
     = Ok {| models.pull_requests := []; models.count := 0 |})
  /\
  (forall prs,
     models.count (models.from_pull_requests prs) = Z.of_nat (length prs)).
Proof.
  split; [| split].
  - intros l. rewrite get_pull_requests_run. cbn [fst].
    destruct (azure_client.reply n _) as [response|e]; [| done].
    cbn [mbind result_bind rbind]. unfold decode.
    repeat match goal with
           | |- match (?r ≫= _) with _ => _ end = _ -> _ =>
               destruct r; [cbn [mbind result_bind rbind] | done]
           end.
    by intros [= <-].
  - intros response data Hr Hs Hb Hv.
    rewrite (get_pull_requests_of_reply _ _ _ _ _ _ Hr).
    by rewrite (decode_success _ _ Hs Hb), Hv.
  - done.
Qed.

Lemma count_is_number_of_entries_witness :
  models.count mock_pr_list
  = Z.of_nat (length (models.pull_requests mock_pr_list))
  /\ (@azure_client.get_pull_requests plain_pydantic test_client
        "testproj" "testrepo" "active"
        (network_answering (Ok (ok_response (JObj {[ "value" := JArr [] ]}))))).1
     = Ok {| models.pull_requests := []; models.count := 0 |}
  /\ models.count (models.from_pull_requests (models.pull_requests mock_pr_list))
     = 1.
Proof.
  split; [| split].
  - apply (proj1 (@count_is_number_of_entries plain_pydantic test_client
                    "testproj" "testrepo" "active"
                    (network_answering
                       (Ok (ok_response
                              (JObj {[ "value" := JArr [mock_pr_data] ]})))))).
    reflexivity.
  - apply (proj1 (proj2 (@count_is_number_of_entries plain_pydantic test_client
                           "testproj" "testrepo" "active"
                           (network_answering
                              (Ok (ok_response
                                     (JObj {[ "value" := JArr [] ]}))))))
             (ok_response (JObj {[ "value" := JArr [] ]}))
             {[ "value" := JArr [] ]}); reflexivity.
  - apply (proj2 (proj2 (@count_is_number_of_entries plain_pydantic test_client
                           "testproj" "testrepo" "active"
                           (network_answering (Ok (ok_response (JObj ∅))))))).
Defined.

(** C10: a successful response whose body is an object without a [value]
    key gives the empty list with count 0, the same result as a body whose
    [value] is the empty array. *)
Theorem missing_value_key_is_empty `{models.Pydantic}
    (self : azure_client.AzureDevOpsClient)
    (project repository status : string) (n n' : azure_client.Network)
    (response response' : Response) (data : gmap string json) :
  azure_client.reply n (request_of self project repository status)
  = Ok response ->
  azure_client.is_success response = true ->
  body_json response = Some (JObj data) ->
  data !! "value" = None ->
  azure_client.reply n' (request_of self project repository status)
  = Ok response' ->
  azure_client.is_success response' = true ->
  body_json response' = Some (JObj (<[ "value" := JArr [] ]> data)) ->
  (azure_client.get_pull_requests self project repository status n).1
  = Ok {| models.pull_requests := []; models.count := 0 |}
  /\ (azure_client.get_pull_requests self project repository status n).1
     = (azure_client.get_pull_requests self project repository status n').1.
Proof.
  intros Hr Hs Hb Hv Hr' Hs' Hb'.
  rewrite (get_pull_requests_of_reply _ _ _ _ _ _ Hr),
    (get_pull_requests_of_reply _ _ _ _ _ _ Hr').
  rewrite (decode_success _ _ Hs Hb), (decode_success _ _ Hs' Hb'), Hv.
  by rewrite lookup_insert_eq.
Qed.

Lemma missing_value_key_is_empty_witness :
  (@azure_client.get_pull_requests plain_pydantic test_client
     "testproj" "testrepo" "active"
     (network_answering (Ok (ok_response (JObj ∅))))).1
  = Ok {| models.pull_requests := []; models.count := 0 |}
  /\ (@azure_client.get_pull_requests plain_pydantic test_client
        "testproj" "testrepo" "active"
        (network_answering (Ok (ok_response (JObj ∅))))).1
     = (@azure_client.get_pull_requests plain_pydantic test_client
          "testproj" "testrepo" "active"
          (network_answering
             (Ok (ok_response (JObj (<[ "value" := JArr [] ]> ∅)))))).1.
Proof.
  apply (@missing_value_key_is_empty plain_pydantic test_client
           "testproj" "testrepo" "active" _ _
           (ok_response (JObj ∅))
           (ok_response (JObj (<[ "value" := JArr [] ]> ∅))) ∅);
    reflexivity.
Defined.

(** C5: when a successful response carries a [value] array with an element
    that lacks a mandatory field (id, title, status, creation date, source
    ref, target ref, or the id of the nested repository), the call raises;
    it returns no list. *)
Theorem missing_mandatory_field_raises `{models.Pydantic}
    (self : azure_client.AzureDevOpsClient)
    (project repository status : string) (n : azure_client.Network)
    (response : Response) (data : gmap string json)
    (items : list json) (pr_data : json) :
  azure_client.reply n (request_of self project repository status)
  = Ok response ->
  azure_client.is_success response = true ->
  body_json response = Some (JObj data) ->
  data !! "value" = Some (JArr items) ->
  pr_data ∈ items ->
  lacks_mandatory_field pr_data ->
  exists e,
    (azure_client.get_pull_requests self project repository status n).1
    = Raise e.
Proof.
  intros Hr Hs Hb Hv Hin Hlack.
  rewrite (get_pull_requests_of_reply _ _ _ _ _ _ Hr).
  rewrite (decode_success _ _ Hs Hb), Hv. simpl.
  destruct (pull_request_of_lacking _ Hlack) as [e He].
  destruct (for_each_raises _ _ _ _ Hin He) as [e' ->].
  by eexists.
Qed.

Lemma missing_mandatory_field_raises_witness :
  exists e,
    (@azure_client.get_pull_requests plain_pydantic test_client
       "testproj" "testrepo" "active"
       (network_answering
          (Ok (ok_response
                 (JObj {[ "value" := JArr [mock_pr_data; untitled_pr_data] ]}))))).1
    = Raise e.
Proof.
  apply (@missing_mandatory_field_raises plain_pydantic test_client
           "testproj" "testrepo" "active" _
           (ok_response
              (JObj {[ "value" := JArr [mock_pr_data; untitled_pr_data] ]}))
           {[ "value" := JArr [mock_pr_data; untitled_pr_data] ]}
           [mock_pr_data; untitled_pr_data] untitled_pr_data);
    try reflexivity.
  - apply list_elem_of_further, list_elem_of_here.
  - left. exists "title". split; [| reflexivity].
    apply list_elem_of_further, list_elem_of_here.
Defined.

(** C6: when the transfer fails with a connection error or a timeout, the
    call raises the error ["Network error connecting to Azure DevOps: ..."];
    whatever a call raises on a response that is not a success (the
    authentication error on 401, the not-found error on 404, the
    [HTTPStatusError] itself on any other status) is a different error. *)
Theorem connectivity_error_is_distinct `{models.Pydantic}
    (self self' : azure_client.AzureDevOpsClient)
    (project repository status project' repository' status' : string)
    (n n' : azure_client.Network) (msg : string) (response' : Response) :
  (azure_client.reply n (request_of self project repository status)
   = Raise (ConnectError msg)
   \/ azure_client.reply n (request_of self project repository status)
      = Raise (TimeoutException msg)) ->
  azure_client.reply n' (request_of self' project' repository' status')
  = Ok response' ->
  azure_client.is_success response' = false ->
  (azure_client.get_pull_requests self project repository status n).1
  = Raise (ValueError ("Network error connecting to Azure DevOps: " +:+ msg))
  /\ (azure_client.get_pull_requests self' project' repository' status' n').1
     = Raise
         (if status_code response' =? 401 then
            ValueError
              "Authentication failed. Check AZURE_DEVOPS_PAT token and permissions"
          else if status_code response' =? 404 then
            ValueError ("Project '" +:+ project' +:+ "' or repository '"
                        +:+ repository' +:+ "' not found")
          else HTTPStatusError response')
  /\ (azure_client.get_pull_requests self' project' repository' status' n').1
     <> (azure_client.get_pull_requests self project repository status n).1.
Proof.
  intros Hfail Hr' Hs'.
  assert (Hnet :
    (azure_client.get_pull_requests self project repository status n).1
    = Raise (ValueError ("Network error connecting to Azure DevOps: " +:+ msg))).
  { rewrite get_pull_requests_run. by destruct Hfail as [-> | ->]. }
  rewrite Hnet, (get_pull_requests_of_reply _ _ _ _ _ _ Hr'),
    (decode_failure _ Hs').
  split; [done |]. split; [done |].
  unfold translate. repeat case_match; simpl; congruence.
Qed.

Lemma connectivity_error_is_distinct_witness :
  (@azure_client.get_pull_requests plain_pydantic test_client
     "testproj" "testrepo" "active"
     (network_answering (Raise (ConnectError "connection refused")))).1
  = Raise (ValueError
             "Network error connecting to Azure DevOps: connection refused")
  /\ (@azure_client.get_pull_requests plain_pydantic test_client
        "badproj" "badrepo" "active"
        (network_answering (Ok (mkResponse 404 None)))).1
     = Raise (ValueError "Project 'badproj' or repository 'badrepo' not found")
  /\ (@azure_client.get_pull_requests plain_pydantic test_client
        "badproj" "badrepo" "active"
        (network_answering (Ok (mkResponse 404 None)))).1
     <> (@azure_client.get_pull_requests plain_pydantic test_client
           "testproj" "testrepo" "active"
           (network_answering (Raise (ConnectError "connection refused")))).1.
Proof.
  apply (@connectivity_error_is_distinct plain_pydantic test_client test_client
           "testproj" "testrepo" "active" "badproj" "badrepo" "active"
           (network_answering (Raise (ConnectError "connection refused")))
           (network_answering (Ok (mkResponse 404 None)))
           "connection refused" (mkResponse 404 None));
    [left; reflexivity | reflexivity | reflexivity].
Defined.

(** ** The resource handlers *)

Section handlers.
Context `{UrlLib} `{models.Pydantic}.

Lemma get_ado_client_cached w client :
  resources._ado_client w = Some client ->
  resources.get_ado_client w = (Ok client, w).
Proof.
  intros Hc. unfold resources.get_ado_client, resources.read_client.
  unfold mbind, M_bind. by rewrite Hc.
Qed.

Lemma get_ado_client_first w settings cs repo_info g org :
  resources._ado_client w = None ->
  config.get_settings (resources.settings w) = (Ok settings, cs) ->
  git_detector.detect_current_repo (resources.git w) = (Ok repo_info, g) ->
  first_organization repo_info settings = Some org ->
  org <> "" ->
  let client := azure_client.__init__ org (config.azure_devops_pat settings) in
  resources.get_ado_client w
  = (Ok client, resources.mkWorld cs g (resources.network w) (Some client)).
Proof.
  intros Hc Hs Hd Ho Hne. unfold resources.get_ado_client, resources.read_client.
  unfold mbind, M_bind, resources.in_config, resources.in_git, zoom.
  rewrite Hc. cbn [resources.settings resources.git resources.network
                   resources._ado_client]. rewrite Hs.
  cbn [resources.settings resources.git resources.network
       resources._ado_client]. rewrite Hd.
  unfold first_organization in Ho. rewrite Ho.
  destruct org as [|c org]; [done |]. reflexivity.
Qed.

Lemma list_pull_requests_resource_eq organization project repository status
    w client w1 :
  resources.get_ado_client w = (Ok client, w1) ->
  resources.list_pull_requests_resource organization project repository
    status w
  = let out := azure_client.get_pull_requests client project repository
                 status (resources.network w1) in
    (models.model_dump_json <$> out.1,
     resources.mkWorld (resources.settings w1) (resources.git w1) out.2
       (resources._ado_client w1)).
Proof.
  intros Hg. unfold resources.list_pull_requests_resource, mtry.
  unfold mbind, M_bind, resources.in_network, zoom. rewrite Hg.
  by destruct (azure_client.get_pull_requests _ _ _ _ _) as [[l|e] n'].
Qed.

Lemma list_pull_requests_resource_run organization project repository status
    w client w1 :
  resources.get_ado_client w = (Ok client, w1) ->
  azure_client.sent
    (resources.network
       (resources.list_pull_requests_resource organization project repository
          status w).2)
  = (azure_client.sent (resources.network w1)
     ++ [request_of client project repository status])%list
  /\ resources._ado_client
       (resources.list_pull_requests_resource organization project repository
          status w).2
     = resources._ado_client w1.
Proof.
  intros Hg. rewrite (list_pull_requests_resource_eq _ _ _ _ _ _ _ Hg).
  cbn [snd resources.network resources._ado_client].
  by rewrite get_pull_requests_sent.
Qed.

Lemma request_url org pat project repository status :
  azure_client.url
    (request_of (azure_client.__init__ org pat) project repository status)
  = "https://dev.azure.com/" +:+ org +:+ "/" +:+ project
    +:+ "/_apis/git/repositories/" +:+ repository +:+ "/pullrequests".
Proof.
  unfold request_of, azure_client.pull_requests_url, azure_client.__init__.
  cbn [azure_client.url azure_client.base_url]. by rewrite append_assoc.
Qed.

End handlers.

(** C1, at a failing input: in a fresh process inside a clone of
    organization [detected], the handler called for organization [otherorg]
    sends its one request to the address of [detected], not to that of the
    organization supplied by the caller: [organization] is never read. *)
Lemma explicit_organization_not_targeted :
  azure_client.url <$>
    azure_client.sent
      (resources.network
         (@resources.list_pull_requests_resource lenient_urllib plain_pydantic
            "otherorg" "proj" "repo" "active"
            (fresh_world (Ok detected_remote) (Ok (ok_response (JObj ∅))))).2)
  = ["https://dev.azure.com/detected/proj/_apis/git/repositories/repo/pullrequests"].
Proof. reflexivity. Qed.

(** X25: the handler of explicit coordinates issues the fetch through the
    client of the process.  If a client exists, it is kept as it is and the
    one request goes through it.  If none exists, the settings load,
    detection returns without raising, and the organization of the detected
    repository, or the configured one when nothing is detected, is present
    and not empty, then the handler stores a client for that organization
    and the one request goes to the address of that organization. *)
Theorem explicit_handler_uses_process_client `{UrlLib} `{models.Pydantic}
    (organization project repository status : string) (w : resources.World) :
  let out :=
    resources.list_pull_requests_resource organization project repository
      status w in
  (forall client,
     resources._ado_client w = Some client ->
     resources._ado_client out.2 = Some client
     /\ azure_client.sent (resources.network out.2)
        = (azure_client.sent (resources.network w)
           ++ [request_of client project repository status])%list)
  /\
  (forall settings cs repo_info g org,
     resources._ado_client w = None ->
     config.get_settings (resources.settings w) = (Ok settings, cs) ->
     git_detector.detect_current_repo (resources.git w) = (Ok repo_info, g) ->
     first_organization repo_info settings = Some org ->
     org <> "" ->
     let client :=
       azure_client.__init__ org (config.azure_devops_pat settings) in
     resources._ado_client out.2 = Some client
     /\ azure_client.sent (resources.network out.2)
        = (azure_client.sent (resources.network w)
           ++ [request_of client project repository status])%list
     /\ azure_client.url (request_of client project repository status)
        = "https://dev.azure.com/" +:+ org +:+ "/" +:+ project
          +:+ "/_apis/git/repositories/" +:+ repository +:+ "/pullrequests").
Proof.
  intros out. split.
  - intros client Hc.
    destruct (list_pull_requests_resource_run organization project repository
                status w client w (get_ado_client_cached _ _ Hc)) as [Hsent Hcl].
    subst out. by rewrite Hsent, Hcl.
  - intros settings cs repo_info g org Hc Hs Hd Ho Hne client.
    pose proof (get_ado_client_first _ _ _ _ _ _ Hc Hs Hd Ho Hne) as Hg.
    destruct (list_pull_requests_resource_run organization project repository
                status w _ _ Hg) as [Hsent Hcl].
    subst out. rewrite Hsent, Hcl. split; [done |]. split; [done |].
    apply request_url.
Qed.

Lemma explicit_handler_uses_process_client_witness :
  (let w := fresh_world (Ok detected_remote) (Ok (ok_response (JObj ∅))) in
   let out :=
     @resources.list_pull_requests_resource lenient_urllib plain_pydantic
       "detected" "proj" "repo" "active" w in
   let client := azure_client.__init__ "detected" "fake_pat_token" in
   resources._ado_client out.2 = Some client
   /\ azure_client.sent (resources.network out.2)
      = (azure_client.sent (resources.network w)
         ++ [request_of client "proj" "repo" "active"])%list
   /\ azure_client.url (request_of client "proj" "repo" "active")
      = "https://dev.azure.com/" +:+ "detected" +:+ "/" +:+ "proj"
        +:+ "/_apis/git/repositories/" +:+ "repo" +:+ "/pullrequests")
  /\
  (let out :=
     @resources.list_pull_requests_resource lenient_urllib plain_pydantic
       "testorg" "proj" "repo" "active" later_world in
   resources._ado_client out.2 = Some test_client
   /\ azure_client.sent (resources.network out.2)
      = (azure_client.sent (resources.network later_world)
         ++ [request_of test_client "proj" "repo" "active"])%list).
Proof.
  split.
  - intros w out client.
    refine (proj2 (@explicit_handler_uses_process_client lenient_urllib
                     plain_pydantic "detected" "proj" "repo" "active" w)
              test_settings
              {| config.environ := Ok test_settings;
                 config._settings := Some test_settings |}
              (Some (git_detector.mkRepoInfo "detected" "proj" "repo"))
              {| git_detector.run_outcome := fun _ => Ok detected_remote;
                 git_detector.run_calls := 1 |}
              "detected" eq_refl eq_refl eq_refl eq_refl _).
    discriminate.
  - exact (proj1 (@explicit_handler_uses_process_client lenient_urllib
                    plain_pydantic "testorg" "proj" "repo" "active"
                    later_world)
             test_client eq_refl).
Defined.

(** C9: when the [git] subprocess exits with a non-zero status, is not
    found, or times out, reading the remote and detecting the repository
    both return [None] without raising, and the handler of the current
    repository returns the JSON text of an object with the two string
    members [error] and [suggestion]. *)
Theorem detection_failure_gives_error_payload `{UrlLib} `{models.Pydantic}
    (status : string) (w : resources.World) (e : exn) :
  git_detector.run_outcome (resources.git w)
    (git_detector.run_calls (resources.git w)) = Raise e ->
  ((exists returncode, e = CalledProcessError returncode)
   \/ e = FileNotFoundError \/ e = TimeoutExpired) ->
  (git_detector.get_git_remote_url (resources.git w)).1 = Ok None
  /\ (git_detector.detect_current_repo (resources.git w)).1 = Ok None
  /\ exists error suggestion : string,
       (resources.list_current_pull_requests_resource status w).1
       = Ok (pyjson.dumps [("error", error); ("suggestion", suggestion)]).
Proof.
  intros Hrun He.
  assert (Hurl : git_detector.get_git_remote_url (resources.git w)
                 = (Ok None,
                    {| git_detector.run_outcome :=
                         git_detector.run_outcome (resources.git w);
                       git_detector.run_calls :=
                         S (git_detector.run_calls (resources.git w)) |})).
  { unfold git_detector.get_git_remote_url, mtry, git_detector.subprocess_run.
    unfold mbind, M_bind. rewrite Hrun.
    by destruct He as [[rc ->] | [-> | ->]]. }
  assert (Hdet : git_detector.detect_current_repo (resources.git w)
                 = (Ok None,
                    {| git_detector.run_outcome :=
                         git_detector.run_outcome (resources.git w);
                       git_detector.run_calls :=
                         S (git_detector.run_calls (resources.git w)) |})).
  { unfold git_detector.detect_current_repo, mbind, M_bind. by rewrite Hurl. }
  split; [by rewrite Hurl |]. split; [by rewrite Hdet |].
  eexists _, _. unfold resources.list_current_pull_requests_resource, mtry.
  unfold mbind, M_bind, resources.in_git, zoom. rewrite Hdet.
  reflexivity.
Qed.

Lemma detection_failure_gives_error_payload_witness :
  let w := fresh_world (Raise (CalledProcessError 1))
             (Ok (ok_response (JObj ∅))) in
  (git_detector.get_git_remote_url (resources.git w)).1 = Ok None
  /\ (@git_detector.detect_current_repo lenient_urllib (resources.git w)).1
     = Ok None
  /\ exists error suggestion : string,
       (@resources.list_current_pull_requests_resource lenient_urllib
          plain_pydantic "active" w).1
       = Ok (pyjson.dumps [("error", error); ("suggestion", suggestion)]).
Proof.
  intros w.
  apply (@detection_failure_gives_error_payload lenient_urllib plain_pydantic
           "active" w (CalledProcessError 1));
    [reflexivity | left; by exists 1].
Defined.

(** * More of the code *)

(** ** The URL parser, continued *)

Section parser_more.
Context `{UrlLib}.

Lemma parse_of_urlparse git_url parsed :
  urllib.urlparse git_url = Ok parsed ->
  exists r, git_detector.parse_azure_devops_url git_url = Ok r.
Proof.
  intros Hu. unfold git_detector.parse_azure_devops_url. rewrite Hu.
  unfold mbind, result_bind, rbind.
  repeat case_match; by eexists.
Qed.

Lemma match_legacy_host org rest :
  segment "." org ->
  re.match_here git_detector.legacy_host_pattern
    (org +:+ ".visualstudio.com" +:+ rest)
  = Some [org].
Proof.
  intros Ho. cbn.
  by rewrite (group_complete "." _ org _ []); [| done | eauto |].
Qed.

Lemma match_legacy proj repo rest :
  segment "/" proj -> segment "/" repo ->
  (rest = "" \/ exists rest', rest = String "/" rest') ->
  re.match_here git_detector.legacy_pattern
    ("/" +:+ proj +:+ "/_git/" +:+ repo +:+ rest)
  = Some [proj; repo].
Proof.
  intros Hp Hr Hrest. cbn.
  rewrite (group_complete "/" _ proj _ [repo]); [done | done | eauto |].
  cbn.
  by rewrite (group_complete "/" _ repo _ []).
Qed.

Lemma has_take c i s : pystr.has c s = false -> pystr.has c (pystr.take i s) = false.
Proof.
  revert i. induction s as [|x s IH]; intros [|i] Hh; simpl in *; try done.
  apply orb_false_iff in Hh as [-> Hh]. by rewrite IH.
Qed.

Lemma has_drop c i s : pystr.has c s = false -> pystr.has c (pystr.drop i s) = false.
Proof.
  revert i. induction s as [|x s IH]; intros [|i] Hh; simpl in *; try done.
  apply orb_false_iff in Hh as [_ Hh]. by apply IH.
Qed.

Lemma has_lstrip c p s :
  pystr.has c s = false -> pystr.has c (pystr.lstrip p s) = false.
Proof.
  induction s as [|x s IH]; simpl; [done |]. intros Hh.
  destruct (p x); [| done]. apply orb_false_iff in Hh as [_ Hh]. by apply IH.
Qed.

Lemma has_remove c p s :
  pystr.has c s = false -> pystr.has c (pystr.remove p s) = false.
Proof.
  induction s as [|x s IH]; simpl; [done |]. intros Hh.
  apply orb_false_iff in Hh as [Hx Hh].
  destruct (p x); simpl; [by apply IH | by rewrite Hx, IH].
Qed.

Lemma has_split_scheme c url :
  pystr.has c url = false -> pystr.has c (urllib.split_scheme url).2 = false.
Proof.
  intros Hh. unfold urllib.split_scheme.
  repeat case_match; simplify_eq; cbn [snd]; try done.
  by apply has_drop.
Qed.

Lemma has_splitnetloc c url :
  pystr.has c url = false ->
  pystr.has c (urllib._splitnetloc url 2).1 = false.
Proof.
  intros Hh. unfold urllib._splitnetloc. cbn [fst]. by apply has_drop, has_take.
Qed.

Lemma all_take p i s : pystr.all p s = true -> pystr.all p (pystr.take i s) = true.
Proof.
  revert i. induction s as [|x s IH]; intros [|i] Hh; simpl in *; try done.
  apply andb_true_iff in Hh as [-> Hh]. by rewrite IH.
Qed.

Lemma all_drop p i s : pystr.all p s = true -> pystr.all p (pystr.drop i s) = true.
Proof.
  revert i. induction s as [|x s IH]; intros [|i] Hh; simpl in *; try done.
  apply andb_true_iff in Hh as [_ Hh]. by apply IH.
Qed.

Lemma all_lstrip p q s :
  pystr.all p s = true -> pystr.all p (pystr.lstrip q s) = true.
Proof.
  induction s as [|x s IH]; simpl; [done |]. intros Hh.
  destruct (q x); [| done]. apply andb_true_iff in Hh as [_ Hh]. by apply IH.
Qed.

Lemma all_remove p q s :
  pystr.all p s = true -> pystr.all p (pystr.remove q s) = true.
Proof.
  induction s as [|x s IH]; simpl; [done |]. intros Hh.
  apply andb_true_iff in Hh as [Hx Hh].
  destruct (q x); simpl; [by apply IH | by rewrite Hx, IH].
Qed.

Lemma all_split_scheme p url :
  pystr.all p url = true -> pystr.all p (urllib.split_scheme url).2 = true.
Proof.
  intros Hh. unfold urllib.split_scheme.
  repeat case_match; simplify_eq; cbn [snd]; try done.
  by apply all_drop.
Qed.

Lemma all_splitnetloc p url :
  pystr.all p url = true ->
  pystr.all p (urllib._splitnetloc url 2).1 = true.
Proof.
  intros Hh. unfold urllib._splitnetloc. cbn [fst]. by apply all_drop, all_take.
Qed.

Lemma checknetloc_ascii netloc :
  pystr.all pystr.isascii netloc = true -> urllib._checknetloc netloc = Ok tt.
Proof.
  intros Ha. unfold urllib._checknetloc. by rewrite Ha, orb_true_r.
Qed.

(** On ASCII text [urlparse] raises only on a bracket. *)
Lemma urlparse_ascii_without_bracket url :
  pystr.all pystr.isascii url = true ->
  pystr.has "[" url = false -> pystr.has "]" url = false ->
  exists parsed, urllib.urlparse url = Ok parsed.
Proof.
  intros Ha Hl Hr. unfold urllib.urlparse, urllib.urlsplit.
  set (u := pystr.remove _ (pystr.lstrip _ url)).
  assert (Hul : pystr.has "[" u = false) by by apply has_remove, has_lstrip.
  assert (Hur : pystr.has "]" u = false) by by apply has_remove, has_lstrip.
  assert (Hua : pystr.all pystr.isascii u = true)
    by by apply all_remove, all_lstrip.
  pose proof (has_split_scheme _ _ Hul) as Hsl.
  pose proof (has_split_scheme _ _ Hur) as Hsr.
  pose proof (all_split_scheme _ _ Hua) as Hsa.
  destruct (urllib.split_scheme u) as [scheme u']. simpl in Hsl, Hsr, Hsa.
  pose proof (has_splitnetloc _ _ Hsl) as Hnl.
  pose proof (has_splitnetloc _ _ Hsr) as Hnr.
  pose proof (all_splitnetloc _ _ Hsa) as Hna.
  destruct (String.eqb (pystr.take 2 u') "//").
  - destruct (urllib._splitnetloc u' 2) as [netloc u'']. simpl in Hnl, Hnr, Hna.
    rewrite Hnl, Hnr. simpl.
    destruct (pystr.split1 "#" u'') as [u3 fragment].
    destruct (pystr.split1 "?" u3) as [u4 query].
    rewrite (checknetloc_ascii _ Hna). simpl.
    destruct (_ && _); [destruct (urllib._splitparams u4) |]; by eexists.
  - simpl.
    destruct (pystr.split1 "#" u') as [u3 fragment].
    destruct (pystr.split1 "?" u3) as [u4 query]. simpl.
    destruct (_ && _); [destruct (urllib._splitparams u4) |]; by eexists.
Qed.

End parser_more.

(** X1: a legacy URL, whose netloc is [{org}.visualstudio.com] and does not
    contain the modern host, and whose path is [/{proj}/_git/{repo}], alone
    or followed by further segments, parses to (org, proj, repo). *)
Theorem legacy_url_parses_to_its_triple `{UrlLib}
    (git_url : string) (parsed : urllib.ParseResult)
    (org hostrest proj repo rest : string) :
  urllib.urlparse git_url = Ok parsed ->
  pystr.contains "dev.azure.com" (urllib.netloc parsed) = false ->
  urllib.netloc parsed = org +:+ ".visualstudio.com" +:+ hostrest ->
  segment "." org ->
  urllib.path parsed = "/" +:+ proj +:+ "/_git/" +:+ repo +:+ rest ->
  segment "/" proj -> segment "/" repo ->
  (rest = "" \/ exists rest', rest = String "/" rest') ->
  git_detector.parse_azure_devops_url git_url
  = Ok (Some (git_detector.mkRepoInfo org proj repo)).
Proof.
  intros Hu Hm Hnet Ho Hpath Hp Hr Hrest.
  assert (Hl : pystr.contains "visualstudio.com" (urllib.netloc parsed) = true).
  { apply contains_spec. exists (org +:+ "."), hostrest.
    rewrite Hnet. by str_norm. }
  pose proof (match_legacy_host org hostrest Ho) as Hh.
  pose proof (search_of_match _ _ _ (match_legacy proj repo rest Hp Hr Hrest))
    as Hs.
  rewrite <- Hnet in Hh. rewrite <- Hpath in Hs.
  unfold git_detector.parse_azure_devops_url. rewrite Hu.
  unfold mbind, result_bind, rbind, re.match_. by rewrite Hm, Hl, Hh, Hs.
Qed.

Lemma legacy_url_parses_to_its_triple_witness :
  @git_detector.parse_azure_devops_url lenient_urllib
    "https://myorg.visualstudio.com/MyProject/_git/MyRepo"
  = Ok (Some (git_detector.mkRepoInfo "myorg" "MyProject" "MyRepo")).
Proof.
  apply (@legacy_url_parses_to_its_triple lenient_urllib
           "https://myorg.visualstudio.com/MyProject/_git/MyRepo"
           (urllib.mkParseResult "https" "myorg.visualstudio.com"
              "/MyProject/_git/MyRepo" "" "" "")
           "myorg" "" "MyProject" "MyRepo" "");
    try reflexivity;
    [split; [discriminate | reflexivity] ..| by left].
Defined.

(** X2: a URL that [urlparse] accepts and whose netloc contains neither
    host marker, or whose path does not contain [/_git/], parses to no
    match. *)
Theorem unrecognized_url_is_no_match `{UrlLib}
    (git_url : string) (parsed : urllib.ParseResult) :
  urllib.urlparse git_url = Ok parsed ->
  (pystr.contains "dev.azure.com" (urllib.netloc parsed) = false
   /\ pystr.contains "visualstudio.com" (urllib.netloc parsed) = false)
  \/ pystr.contains "/_git/" (urllib.path parsed) = false ->
  git_detector.parse_azure_devops_url git_url = Ok None.
Proof.
  intros Hu Hno. destruct (parse_of_urlparse _ _ Hu) as [[info|] Hr]; [| done].
  exfalso. destruct (parse_inv _ _ Hr) as (parsed' & Hu' & Hcases).
  rewrite Hu in Hu'. inv Hu'. cbv zeta in Hcases.
  destruct Hno as [[Hm Hl] | Hgit].
  - destruct Hcases as [[Hm' _] | (_ & Hl' & _)]; congruence.
  - assert (pystr.contains "/_git/" (urllib.path parsed') = true); [| congruence].
    apply contains_spec.
    destruct Hcases as [[_ Hs] | (_ & _ & _ & Hs)];
      destruct (search_sound _ _ _ Hs) as (pre & rest & E & _).
    + rewrite modern_instance in E.
      exists (pre +:+ "/" +:+ git_detector.organization info
                +:+ "/" +:+ git_detector.project info),
        (git_detector.repository info +:+ rest).
      rewrite E. by str_norm.
    + rewrite legacy_instance in E.
      exists (pre +:+ "/" +:+ git_detector.project info),
        (git_detector.repository info +:+ rest).
      rewrite E. by str_norm.
Qed.

Lemma unrecognized_url_is_no_match_witness :
  @git_detector.parse_azure_devops_url lenient_urllib
    "https://github.com/user/repo.git" = Ok None
  /\ @git_detector.parse_azure_devops_url lenient_urllib
       "https://dev.azure.com/myorg/MyProject/MyRepo" = Ok None.
Proof.
  split.
  - apply (@unrecognized_url_is_no_match lenient_urllib
             "https://github.com/user/repo.git"
             (urllib.mkParseResult "https" "github.com" "/user/repo.git"
                "" "" "") eq_refl).
    left. split; reflexivity.
  - apply (@unrecognized_url_is_no_match lenient_urllib
             "https://dev.azure.com/myorg/MyProject/MyRepo"
             (urllib.mkParseResult "https" "dev.azure.com"
                "/myorg/MyProject/MyRepo" "" "" "") eq_refl).
    right. reflexivity.
Defined.

(** X3: on an ASCII string without the characters [[] and []] the parser
    never raises: it returns a repository or no match. *)
Theorem parse_ascii_without_bracket_returns `{UrlLib} (git_url : string) :
  pystr.all pystr.isascii git_url = true ->
  pystr.has "[" git_url = false ->
  pystr.has "]" git_url = false ->
  exists r, git_detector.parse_azure_devops_url git_url = Ok r.
Proof.
  intros Ha Hl Hr.
  destruct (urlparse_ascii_without_bracket _ Ha Hl Hr) as [parsed Hu].
  by apply (parse_of_urlparse _ parsed).
Qed.

Lemma parse_ascii_without_bracket_returns_witness :
  exists r,
    @git_detector.parse_azure_devops_url lenient_urllib "not-a-valid-url"
    = Ok r.
Proof.
  apply (@parse_ascii_without_bracket_returns lenient_urllib
           "not-a-valid-url"); reflexivity.
Defined.

(** X4: the fields of every repository that the parser returns are
    non-empty, and its project and repository contain no slash. *)
Theorem parsed_components_are_segments `{UrlLib}
    (git_url : string) (info : git_detector.RepoInfo) :
  git_detector.parse_azure_devops_url git_url = Ok (Some info) ->
  git_detector.organization info <> ""
  /\ segment "/" (git_detector.project info)
  /\ segment "/" (git_detector.repository info).
Proof.
  intros Hp. destruct (parse_inv _ _ Hp) as (parsed & _ & Hcases).
  cbv zeta in Hcases.
  destruct Hcases as [[_ Hs] | (_ & _ & Hh & Hs)].
  - destruct (search_sound _ _ _ Hs) as (_ & _ & _ & Hc).
    simpl in Hc. destruct Hc as ([Ho _] & Hpr & Hr & _). done.
  - destruct (match_here_sound _ _ _ Hh) as (_ & _ & Hch).
    destruct (search_sound _ _ _ Hs) as (_ & _ & _ & Hc).
    simpl in Hch, Hc. destruct Hch as [[Ho _] _].
    destruct Hc as (Hpr & Hr & _). done.
Qed.

Lemma parsed_components_are_segments_witness :
  "myorg" <> "" /\ segment "/" "MyProject" /\ segment "/" "MyRepo".
Proof.
  exact (@parsed_components_are_segments lenient_urllib
           "https://dev.azure.com/myorg/MyProject/_git/MyRepo"
           (git_detector.mkRepoInfo "myorg" "MyProject" "MyRepo") eq_refl).
Defined.

(** X24: every URL [https://dev.azure.com/{org}/{proj}/_git/{repo}] whose
    three segments are non-empty and have no slash, no [?], [#] or [;]
    and no TAB, CR or LF parses to (org, proj, repo). *)
Theorem modern_https_url_parses `{UrlLib} (org proj repo : string) :
  segment "/" org -> segment "/" proj -> segment "/" repo ->
  pystr.all path_char org = true ->
  pystr.all path_char proj = true ->
  pystr.all path_char repo = true ->
  git_detector.parse_azure_devops_url
    ("https://dev.azure.com/" +:+ org +:+ "/" +:+ proj +:+ "/_git/" +:+ repo)
  = Ok (Some (git_detector.mkRepoInfo org proj repo)).
Proof.
  intros Ho Hp Hr Hco Hcp Hcr.
  assert (Hall : pystr.all path_char
                   (org +:+ "/" +:+ proj +:+ "/_git/" +:+ repo) = true).
  { by rewrite !all_append, Hco, Hcp, Hcr. }
  apply (parse_modern_root _ _ org proj repo "" (urlparse_modern_https _ Hall));
    try done; [by rewrite append_empty_r | by left].
Qed.

Lemma modern_https_url_parses_witness :
  @git_detector.parse_azure_devops_url lenient_urllib
    ("https://dev.azure.com/" +:+ "myorg" +:+ "/" +:+ "MyProject" +:+ "/_git/"
     +:+ "MyRepo")
  = Ok (Some (git_detector.mkRepoInfo "myorg" "MyProject" "MyRepo")).
Proof.
  apply (@modern_https_url_parses lenient_urllib "myorg" "MyProject" "MyRepo");
    try reflexivity; split; (discriminate || reflexivity).
Defined.

(** ** Detection *)

Lemma rev_app_append s1 s2 : String.rev_app s1 s2 = String.rev s1 +:+ s2.
Proof.
  unfold String.rev. revert s2.
  induction s1 as [|x s1 IH]; intros s2; simpl; [done |].
  rewrite (IH (String x s2)), (IH (String x "")). by str_norm.
Qed.

Lemma rev_cons x s : String.rev (String x s) = String.rev s +:+ String x "".
Proof. unfold String.rev at 1. simpl. apply rev_app_append. Qed.

Lemma rev_append a b : String.rev (a +:+ b) = String.rev b +:+ String.rev a.
Proof.
  induction a as [|x a IH]; simpl.
  - by rewrite append_empty_r.
  - by rewrite !rev_cons, IH, append_assoc.
Qed.

Lemma rev_involutive s : String.rev (String.rev s) = s.
Proof.
  induction s as [|x s IH]; [done |].
  by rewrite rev_cons, rev_append, IH.
Qed.

Lemma all_rev p s : pystr.all p (String.rev s) = pystr.all p s.
Proof.
  induction s as [|x s IH]; [done |].
  rewrite rev_cons, all_append, IH. simpl. by rewrite andb_true_r, andb_comm.
Qed.

Lemma lstrip_spaces p ws t :
  pystr.all p ws = true -> pystr.lstrip p (ws +:+ t) = pystr.lstrip p t.
Proof.
  induction ws as [|x ws IH]; simpl; [done |]. intros Hall.
  apply andb_true_iff in Hall as [-> Hall]. by apply IH.
Qed.


(** [strip] removes the whitespace around a text that neither starts nor
    ends with whitespace. *)
Lemma strip_surrounded ws1 ws2 x y middle middle' :
  pystr.all pystr.isspace ws1 = true ->
  pystr.all pystr.isspace ws2 = true ->
  pystr.isspace x = false -> pystr.isspace y = false ->
  String x middle = middle' +:+ String y "" ->
  pystr.strip (ws1 +:+ String x middle +:+ ws2) = String x middle.
Proof.
  intros H1 H2 Hx Hy Hlast. unfold pystr.strip.
  rewrite (lstrip_spaces _ _ _ H1).
  replace (pystr.lstrip pystr.isspace (String x middle +:+ ws2))
    with (String x middle +:+ ws2) by (simpl; by rewrite Hx).
  rewrite rev_append, lstrip_spaces by by rewrite all_rev.
  rewrite Hlast, rev_append. simpl. rewrite Hy.
  rewrite <- (rev_involutive (middle' +:+ String y "")).
  by rewrite rev_append.
Qed.


Section detection.
Context `{UrlLib}.

Lemma get_git_remote_url_ok g stdout :
  git_detector.run_outcome g (git_detector.run_calls g) = Ok stdout ->
  git_detector.get_git_remote_url g = (Ok (Some (pystr.strip stdout)), ran g).
Proof.
  intros Hrun. unfold git_detector.get_git_remote_url, mtry,
    git_detector.subprocess_run, mbind, M_bind. by rewrite Hrun.
Qed.

Lemma detect_current_repo_ok g stdout :
  git_detector.run_outcome g (git_detector.run_calls g) = Ok stdout ->
  git_detector.detect_current_repo g
  = (if pystr.truthy (pystr.strip stdout)
     then git_detector.parse_azure_devops_url (pystr.strip stdout)
     else Ok None,
     ran g).
Proof.
  intros Hrun. unfold git_detector.detect_current_repo, mbind, M_bind.
  rewrite (get_git_remote_url_ok _ _ Hrun).
  by destruct (pystr.truthy _).
Qed.

Lemma detect_current_repo_calls g :
  (git_detector.detect_current_repo g).2 = ran g.
Proof.
  unfold git_detector.detect_current_repo, git_detector.get_git_remote_url,
    mtry, git_detector.subprocess_run, mbind, M_bind, mlift, mret, M_ret,
    mthrow, M_throw.
  repeat case_match; simplify_eq; done.
Qed.

End detection.

(** X5: when [git] prints the remote URL with whitespace around it (the
    newline that ends its output), reading the remote gives the URL
    itself, and detection gives what the parser makes of it. *)
Theorem detection_trims_output `{UrlLib}
    (g : git_detector.Subprocess) (ws1 ws2 middle middle' : string)
    (x y : ascii) :
  git_detector.run_outcome g (git_detector.run_calls g)
  = Ok (ws1 +:+ String x middle +:+ ws2) ->
  pystr.all pystr.isspace ws1 = true ->
  pystr.all pystr.isspace ws2 = true ->
  pystr.isspace x = false -> pystr.isspace y = false ->
  String x middle = middle' +:+ String y "" ->
  (git_detector.get_git_remote_url g).1 = Ok (Some (String x middle))
  /\ (git_detector.detect_current_repo g).1
     = git_detector.parse_azure_devops_url (String x middle).
Proof.
  intros Hrun H1 H2 Hx Hy Hlast.
  rewrite (get_git_remote_url_ok _ _ Hrun), (detect_current_repo_ok _ _ Hrun).
  by rewrite (strip_surrounded _ _ _ _ _ _ H1 H2 Hx Hy Hlast).
Qed.

Lemma detection_trims_output_witness :
  let g := {| git_detector.run_outcome := fun _ => Ok detected_remote;
              git_detector.run_calls := 0 |} in
  (git_detector.get_git_remote_url g).1
  = Ok (Some "https://dev.azure.com/detected/proj/_git/repo")
  /\ (@git_detector.detect_current_repo lenient_urllib g).1
     = @git_detector.parse_azure_devops_url lenient_urllib
         "https://dev.azure.com/detected/proj/_git/repo".
Proof.
  intros g.
  apply (@detection_trims_output lenient_urllib g ""
           (String pyjson.newline "")
           "ttps://dev.azure.com/detected/proj/_git/repo"
           "https://dev.azure.com/detected/proj/_git/rep" "h" "o");
    reflexivity.
Defined.



(** X7: every detection runs [git] exactly once, whether the tool
    succeeds, fails, or the parser raises. *)
Theorem detection_runs_git_once `{UrlLib} (g : git_detector.Subprocess) :
  git_detector.run_calls (git_detector.detect_current_repo g).2
  = S (git_detector.run_calls g)
  /\ git_detector.run_outcome (git_detector.detect_current_repo g).2
     = git_detector.run_outcome g.
Proof. by rewrite detect_current_repo_calls. Qed.

(** X8: an exception of the subprocess other than a non-zero exit, a
    missing tool or a timeout is not absorbed: reading the remote,
    detection and the handler of the current repository all raise it. *)
Theorem other_subprocess_errors_propagate `{UrlLib} `{models.Pydantic}
    (status : string) (w : resources.World) (e : exn) :
  git_detector.run_outcome (resources.git w)
    (git_detector.run_calls (resources.git w)) = Raise e ->
  (forall returncode, e <> CalledProcessError returncode) ->
  e <> FileNotFoundError ->
  e <> TimeoutExpired ->
  (git_detector.get_git_remote_url (resources.git w)).1 = Raise e
  /\ (git_detector.detect_current_repo (resources.git w)).1 = Raise e
  /\ (resources.list_current_pull_requests_resource status w).1 = Raise e.
Proof.
  intros Hrun Hc Hf Ht.
  assert (Hurl : git_detector.get_git_remote_url (resources.git w)
                 = (Raise e, ran (resources.git w))).
  { unfold git_detector.get_git_remote_url, mtry,
      git_detector.subprocess_run, mbind, M_bind. rewrite Hrun.
    destruct e; try done. by destruct (Hc returncode). }
  assert (Hdet : git_detector.detect_current_repo (resources.git w)
                 = (Raise e, ran (resources.git w))).
  { unfold git_detector.detect_current_repo, mbind, M_bind. by rewrite Hurl. }
  split; [by rewrite Hurl |]. split; [by rewrite Hdet |].
  unfold resources.list_current_pull_requests_resource, mtry.
  unfold mbind, M_bind, resources.in_git, zoom. by rewrite Hdet.
Qed.

Lemma other_subprocess_errors_propagate_witness :
  let w := fresh_world (Raise (OSError "Permission denied"))
             (Ok (ok_response (JObj ∅))) in
  (git_detector.get_git_remote_url (resources.git w)).1
  = Raise (OSError "Permission denied")
  /\ (@git_detector.detect_current_repo lenient_urllib (resources.git w)).1
     = Raise (OSError "Permission denied")
  /\ (@resources.list_current_pull_requests_resource lenient_urllib
        plain_pydantic "active" w).1
     = Raise (OSError "Permission denied").
Proof.
  intros w.
  apply (@other_subprocess_errors_propagate lenient_urllib plain_pydantic
           "active" w (OSError "Permission denied")); done.
Defined.

(** X9: whenever detection finds no repository (the tool failed, or the
    remote is not an Azure DevOps one), the handler of the current
    repository returns the error payload, and apart from the one run of
    [git] the process is as before: no request is sent and no client is
    constructed. *)
Theorem no_repository_leaves_process_untouched `{UrlLib} `{models.Pydantic}
    (status : string) (w : resources.World) :
  (git_detector.detect_current_repo (resources.git w)).1 = Ok None ->
  resources.list_current_pull_requests_resource status w
  = (Ok (pyjson.dumps resources.error_response),
     resources.mkWorld (resources.settings w) (ran (resources.git w))
       (resources.network w) (resources._ado_client w)).
Proof.
  intros Hdet. unfold resources.list_current_pull_requests_resource, mtry.
  unfold mbind, M_bind, resources.in_git, zoom.
  rewrite (surjective_pairing (git_detector.detect_current_repo _)),
    Hdet, detect_current_repo_calls.
  reflexivity.
Qed.

Lemma no_repository_leaves_process_untouched_witness :
  let w := fresh_world (Ok "https://github.com/user/repo.git")
             (Ok (ok_response (JObj ∅))) in
  @resources.list_current_pull_requests_resource lenient_urllib
    plain_pydantic "active" w
  = (Ok (pyjson.dumps resources.error_response),
     resources.mkWorld (resources.settings w) (ran (resources.git w))
       (resources.network w) (resources._ado_client w)).
Proof.
  intros w.
  apply (@no_repository_leaves_process_untouched lenient_urllib
           plain_pydantic "active" w).
  reflexivity.
Defined.

(** ** The REST client, continued *)

Section client_more.
Context `{models.Pydantic}.

Lemma for_each_Forall2 {A B} (f : A -> result B) (xs : list A) (ys : list B) :
  for_each f xs = Ok ys -> Forall2 (fun x y => f x = Ok y) xs ys.
Proof.
  revert ys. induction xs as [|x xs IH]; simpl; intros ys Hys.
  - inv Hys. constructor.
  - destruct (f x) as [y|] eqn:Hx; [| done]. simpl in Hys.
    destruct (for_each f xs) as [ys'|]; [| done]. inv Hys.
    constructor; [done | by apply IH].
Qed.

Lemma get_pull_requests_of_array self project repository status n response
    data items :
  azure_client.reply n (request_of self project repository status)
  = Ok response ->
  azure_client.is_success response = true ->
  body_json response = Some (JObj data) ->
  data !! "value" = Some (JArr items) ->
  (azure_client.get_pull_requests self project repository status n).1
  = match for_each azure_client.pull_request_of items with
    | Ok prs => Ok (models.from_pull_requests prs)
    | Raise e => Raise (translate project repository e)
    end.
Proof.
  intros Hr Hs Hb Hv.
  rewrite (get_pull_requests_of_reply _ _ _ _ _ _ Hr).
  rewrite (decode_success _ _ Hs Hb), Hv. simpl.
  by destruct (for_each _ _).
Qed.

(** The results of the steps of the loop body, when it returns. *)
Lemma pull_request_of_inv m pr :
  azure_client.pull_request_of (JObj m) = Ok pr ->
  exists a pull_request_id title status created_date source target repository
         repository_id,
    default (JObj ∅) (m !! "createdBy") = JObj a /\
    models.new_PullRequestAuthor
      (default (JStr "Unknown") (a !! "displayName"))
      (default (JStr "") (a !! "uniqueName"))
      (default (JStr "") (a !! "id"))
    = Ok (models.created_by pr) /\
    m !! "pullRequestId" = Some pull_request_id /\
    m !! "title" = Some title /\
    m !! "status" = Some status /\
    m !! "creationDate" = Some created_date /\
    m !! "sourceRefName" = Some source /\
    m !! "targetRefName" = Some target /\
    m !! "repository" = Some (JObj repository) /\
    repository !! "id" = Some repository_id /\
    models.new_PullRequest pull_request_id title
      (default JNull (m !! "description")) status created_date
      (models.created_by pr) source target
      (default (JStr "") (m !! "url")) repository_id
    = Ok pr.
Proof.
  unfold azure_client.pull_request_of. intros Hpr.
  repeat match type of Hpr with
         | (?r ≫= _) = Ok _ =>
             let E := fresh "E" in
             destruct r eqn:E; [cbn [mbind result_bind rbind] in Hpr | done]
         end.
  repeat match goal with
         | E : py.getitem (JObj _) _ = Ok _ |- _ => apply getitem_ok in E
         | E : py.get (JObj _) _ _ = Ok _ |- _ => simpl in E; inv E
         end.
  destruct (default (JObj ∅) (m !! "createdBy")) as [| | | | | |a] eqn:Ha;
    try done.
  repeat match goal with
         | E : py.get (JObj _) _ _ = Ok _ |- _ => simpl in E; inv E
         end.
  match goal with
  | E : m !! "repository" = Some ?r, E' : py.getitem ?r "id" = Ok _ |- _ =>
      destruct r; try done; apply getitem_ok in E'
  end.
  match goal with
  | E : models.new_PullRequestAuthor _ _ _ = Ok ?author |- _ =>
      assert (Hcb : models.created_by pr = author)
  end.
  { unfold models.new_PullRequest in Hpr. repeat case_match; by simplify_eq. }
  rewrite Hcb. by eexists a, _, _, _, _, _, _, _, _.
Qed.

End client_more.

(** X10: the list that a call returns follows the [value] array: it has
    one record per element, in the order of the response, each the image
    of its element under the loop body. *)
Theorem pull_requests_follow_upstream_order `{models.Pydantic}
    (self : azure_client.AzureDevOpsClient)
    (project repository status : string) (n : azure_client.Network)
    (response : Response) (data : gmap string json) (items : list json)
    (l : models.PullRequestList) :
  azure_client.reply n (request_of self project repository status)
  = Ok response ->
  azure_client.is_success response = true ->
  body_json response = Some (JObj data) ->
  data !! "value" = Some (JArr items) ->
  (azure_client.get_pull_requests self project repository status n).1 = Ok l ->
  Forall2 (fun pr_data pr => azure_client.pull_request_of pr_data = Ok pr)
    items (models.pull_requests l).
Proof.
  intros Hr Hs Hb Hv.
  rewrite (get_pull_requests_of_array _ _ _ _ _ _ _ _ Hr Hs Hb Hv).
  destruct (for_each _ items) as [prs|] eqn:Hfor; [| done].
  intros [= <-]. by apply for_each_Forall2.
Qed.

Lemma pull_requests_follow_upstream_order_witness :
  Forall2
    (fun pr_data pr => @azure_client.pull_request_of plain_pydantic pr_data = Ok pr)
    [mock_pr_data] (models.pull_requests mock_pr_list).
Proof.
  apply (@pull_requests_follow_upstream_order plain_pydantic test_client
           "testproj" "testrepo" "active"
           (network_answering
              (Ok (ok_response (JObj {[ "value" := JArr [mock_pr_data] ]}))))
           (ok_response (JObj {[ "value" := JArr [mock_pr_data] ]}))
           {[ "value" := JArr [mock_pr_data] ]} [mock_pr_data] mock_pr_list);
    reflexivity.
Defined.

(** X11: each mandatory field of a record that the loop body returns is
    what pydantic makes of the value under the field's upstream key: the
    id of [pullRequestId], the title of [title], the status of [status],
    the creation date of [creationDate], the refs of [sourceRefName] and
    [targetRefName], the repository id of [repository.id]. *)
Theorem fields_come_from_their_keys `{models.Pydantic}
    (pr_data : json) (pr : models.PullRequest) :
  azure_client.pull_request_of pr_data = Ok pr ->
  field pr_data "pullRequestId" ≫= models.validate_int
  = Some (models.pull_request_id pr)
  /\ field pr_data "title" ≫= models.validate_str = Some (models.title pr)
  /\ field pr_data "status" ≫= models.validate_str = Some (models.status pr)
  /\ field pr_data "creationDate" ≫= models.validate_datetime
     = Some (models.created_date pr)
  /\ field pr_data "sourceRefName" ≫= models.validate_str
     = Some (models.source_ref_name pr)
  /\ field pr_data "targetRefName" ≫= models.validate_str
     = Some (models.target_ref_name pr)
  /\ (field pr_data "repository" ≫= fun r => field r "id")
     ≫= models.validate_str
     = Some (models.repository_id pr).
Proof.
  intros Hpr. destruct pr_data as [| | | | | |m]; try done.
  destruct (pull_request_of_inv _ _ Hpr)
    as (a & i & t & st & cd & sr & tr & r & ri & _ & _ & Ei & Et & Est & Ecd
        & Esr & Etr & Er & Eri & Hnew).
  simpl. rewrite Ei, Et, Est, Ecd, Esr, Etr, Er. simpl. rewrite Eri. simpl.
  unfold models.new_PullRequest in Hnew.
  repeat case_match; simplify_eq. by rewrite <- Hnew.
Qed.

Lemma fields_come_from_their_keys_witness :
  let P := plain_pydantic in
  field mock_pr_data "pullRequestId" ≫= models.validate_int
  = Some (models.pull_request_id mock_pr)
  /\ field mock_pr_data "title" ≫= models.validate_str
     = Some (models.title mock_pr)
  /\ field mock_pr_data "status" ≫= models.validate_str
     = Some (models.status mock_pr)
  /\ field mock_pr_data "creationDate" ≫= models.validate_datetime
     = Some (models.created_date mock_pr)
  /\ field mock_pr_data "sourceRefName" ≫= models.validate_str
     = Some (models.source_ref_name mock_pr)
  /\ field mock_pr_data "targetRefName" ≫= models.validate_str
     = Some (models.target_ref_name mock_pr)
  /\ (field mock_pr_data "repository" ≫= fun r => field r "id")
     ≫= models.validate_str
     = Some (models.repository_id mock_pr).
Proof.
  exact (@fields_come_from_their_keys plain_pydantic mock_pr_data mock_pr
           eq_refl).
Defined.

(** X12: under a pydantic that takes a string for a string field as it is,
    the optional fields default: an element without [createdBy] gets the
    author ("Unknown", "", ""), an author object without [displayName] gets
    the display name "Unknown", an element without [description] or with a
    null one gets no description, and an element without [url] gets the
    empty URL. *)
Theorem optional_fields_default `{models.Pydantic}
    (pr_data : json) (pr : models.PullRequest) :
  azure_client.pull_request_of pr_data = Ok pr ->
  (forall s, models.validate_str (JStr s) = Some s) ->
  (field pr_data "createdBy" = None ->
   models.created_by pr = models.mkPullRequestAuthor "Unknown" "" "")
  /\ (forall a,
        field pr_data "createdBy" = Some (JObj a) ->
        a !! "displayName" = None ->
        models.display_name (models.created_by pr) = "Unknown")
  /\ (field pr_data "description" = None
      \/ field pr_data "description" = Some JNull ->
      models.description pr = None)
  /\ (field pr_data "url" = None -> models.url pr = "").
Proof.
  intros Hpr Hstr. destruct pr_data as [| | | | | |m]; try done.
  destruct (pull_request_of_inv _ _ Hpr)
    as (a & i & t & st & cd & sr & tr & r & ri & Ha & Hauthor & _ & _ & _ & _
        & _ & _ & _ & _ & Hnew).
  simpl. unfold models.new_PullRequestAuthor in Hauthor.
  unfold models.new_PullRequest in Hnew.
  split; [| split; [| split]].
  - intros Hnone. rewrite Hnone in Ha. simpl in Ha. inv Ha.
    rewrite !lookup_empty in Hauthor. simpl in Hauthor.
    rewrite !Hstr in Hauthor. by inv Hauthor.
  - intros a' Hsome Hnone. rewrite Hsome in Ha. simpl in Ha. inv Ha.
    rewrite Hnone in Hauthor. simpl in Hauthor. rewrite Hstr in Hauthor.
    clear Hnew. repeat case_match; simplify_eq. by rewrite <- Hauthor.
  - intros Hdesc.
    assert (Hd : default JNull (m !! "description") = JNull)
      by by destruct Hdesc as [-> | ->].
    rewrite Hd in Hnew. simpl in Hnew.
    repeat case_match; simplify_eq. by rewrite <- Hnew.
  - intros Hurl. rewrite Hurl in Hnew. simpl in Hnew. rewrite Hstr in Hnew.
    repeat case_match; simplify_eq. by rewrite <- Hnew.
Qed.

Lemma optional_fields_default_witness :
  models.created_by bare_pr = models.mkPullRequestAuthor "Unknown" "" ""
  /\ models.description bare_pr = None
  /\ models.url bare_pr = "".
Proof.
  pose proof (@optional_fields_default plain_pydantic bare_pr_data bare_pr
                eq_refl (fun s => eq_refl)) as (Hauthor & _ & Hdesc & Hurl).
  split; [by apply Hauthor |]. split; [apply Hdesc; by left | by apply Hurl].
Defined.

(** X13: a successful response whose body is not JSON, is JSON but not an
    object, or is an object whose [value] is null or a number, makes the
    call raise, and the exception is the decoder's own: it is not turned
    into one of the client's [ValueError]s. *)
Theorem malformed_body_raises `{models.Pydantic}
    (self : azure_client.AzureDevOpsClient)
    (project repository status : string) (n : azure_client.Network)
    (response : Response) :
  azure_client.reply n (request_of self project repository status)
  = Ok response ->
  azure_client.is_success response = true ->
  (body_json response = None ->
   (azure_client.get_pull_requests self project repository status n).1
   = Raise JSONDecodeError)
  /\ (forall body,
        body_json response = Some body ->
        (forall data, body <> JObj data) ->
        exists msg,
          (azure_client.get_pull_requests self project repository status n).1
          = Raise (AttributeError msg))
  /\ (forall data value,
        body_json response = Some (JObj data) ->
        data !! "value" = Some value ->
        value = JNull \/ (exists z, value = JInt z)
        \/ (exists b, value = JBool b) \/ (exists x, value = JFloat x) ->
        exists msg,
          (azure_client.get_pull_requests self project repository status n).1
          = Raise (TypeError msg)).
Proof.
  intros Hr Hs. rewrite (get_pull_requests_of_reply _ _ _ _ _ _ Hr).
  split; [| split].
  - intros Hb. unfold decode, azure_client.raise_for_status,
      azure_client.response_json. by rewrite Hs, Hb.
  - intros body Hb Hno. unfold decode, azure_client.raise_for_status,
      azure_client.response_json. rewrite Hs, Hb.
    destruct body; try by eexists. by destruct (Hno members).
  - intros data value Hb Hv Hval. rewrite (decode_success _ _ Hs Hb), Hv.
    destruct Hval as [-> | [[z ->] | [[b ->] | [x ->]]]]; by eexists.
Qed.

Lemma malformed_body_raises_witness :
  (@azure_client.get_pull_requests plain_pydantic test_client
     "testproj" "testrepo" "active"
     (network_answering (Ok (mkResponse 200 None)))).1
  = Raise JSONDecodeError
  /\ (exists msg,
        (@azure_client.get_pull_requests plain_pydantic test_client
           "testproj" "testrepo" "active"
           (network_answering (Ok (ok_response (JArr []))))).1
        = Raise (AttributeError msg))
  /\ (exists msg,
        (@azure_client.get_pull_requests plain_pydantic test_client
           "testproj" "testrepo" "active"
           (network_answering
              (Ok (ok_response (JObj {[ "value" := JNull ]}))))).1
        = Raise (TypeError msg)).
Proof.
  split; [| split].
  - apply (proj1 (@malformed_body_raises plain_pydantic test_client
                    "testproj" "testrepo" "active"
                    (network_answering (Ok (mkResponse 200 None)))
                    (mkResponse 200 None) eq_refl eq_refl)).
    reflexivity.
  - apply (proj1 (proj2 (@malformed_body_raises plain_pydantic test_client
                           "testproj" "testrepo" "active"
                           (network_answering (Ok (ok_response (JArr []))))
                           (ok_response (JArr [])) eq_refl eq_refl))
             (JArr [])); [reflexivity | discriminate].
  - apply (proj2 (proj2 (@malformed_body_raises plain_pydantic test_client
                           "testproj" "testrepo" "active"
                           (network_answering
                              (Ok (ok_response (JObj {[ "value" := JNull ]}))))
                           (ok_response (JObj {[ "value" := JNull ]}))
                           eq_refl eq_refl))
             {[ "value" := JNull ]} JNull); [reflexivity | reflexivity | by left].
Defined.

(** X14: a failure of the transfer that is neither a connection error nor
    a timeout (a read error, a protocol error) is raised as it is. *)
Theorem other_transport_errors_propagate `{models.Pydantic}
    (self : azure_client.AzureDevOpsClient)
    (project repository status : string) (n : azure_client.Network)
    (e : exn) :
  azure_client.reply n (request_of self project repository status)
  = Raise e ->
  (forall response, e <> HTTPStatusError response) ->
  (forall msg, e <> ConnectError msg) ->
  (forall msg, e <> TimeoutException msg) ->
  (azure_client.get_pull_requests self project repository status n).1
  = Raise e.
Proof.
  intros Hr Hh Hc Ht. rewrite get_pull_requests_run, Hr. simpl.
  destruct e; try done.
  - by destruct (Hh response).
  - by destruct (Hc msg).
  - by destruct (Ht msg).
Qed.

Lemma other_transport_errors_propagate_witness :
  (@azure_client.get_pull_requests plain_pydantic test_client
     "testproj" "testrepo" "active"
     (network_answering (Raise (TransportError "read error")))).1
  = Raise (TransportError "read error").
Proof.
  by apply (@other_transport_errors_propagate plain_pydantic test_client
              "testproj" "testrepo" "active"
              (network_answering (Raise (TransportError "read error")))
              (TransportError "read error")).
Defined.

(** X15: the one request of a call goes to
    [{base_url}/{project}/_apis/git/repositories/{repository}/pullrequests],
    carries [api-version=7.1], and carries no parameter besides that one
    and the status filter; for a client made by [__init__] the base is
    [https://dev.azure.com/{organization}]. *)
Theorem request_shape `{models.Pydantic}
    (organization pat project repository status : string)
    (n : azure_client.Network) :
  let self := azure_client.__init__ organization pat in
  exists request,
    azure_client.sent
      (azure_client.get_pull_requests self project repository status n).2
    = (azure_client.sent n ++ [request])%list
    /\ azure_client.url request
       = "https://dev.azure.com/" +:+ organization +:+ "/" +:+ project
         +:+ "/_apis/git/repositories/" +:+ repository +:+ "/pullrequests"
    /\ azure_client.params request !! "api-version" = Some "7.1"
    /\ dom (azure_client.params request)
       ⊆ ({[ "api-version"; "searchCriteria.status" ]} : gset string).
Proof.
  intros self. exists (request_of self project repository status).
  split; [apply get_pull_requests_sent |]. split; [apply request_url |].
  unfold request_of, azure_client.query_params. simpl.
  case_bool_decide.
  - split; [by rewrite lookup_insert_ne | set_solver].
  - split; [by rewrite lookup_singleton_eq | set_solver].
Qed.

(** ** Configuration and the client of the process *)

Section process.
Context `{UrlLib} `{models.Pydantic}.

Lemma get_ado_client_uncached w :
  resources._ado_client w = None ->
  resources.get_ado_client w
  = match config.get_settings (resources.settings w) with
    | (Raise e, cs) =>
        (Raise e,
         resources.mkWorld cs (resources.git w) (resources.network w) None)
    | (Ok settings, cs) =>
        match git_detector.detect_current_repo (resources.git w) with
        | (Raise e, g) =>
            (Raise e, resources.mkWorld cs g (resources.network w) None)
        | (Ok repo_info, g) =>
            match first_organization repo_info settings with
            | Some (String c org) =>
                let client :=
                  azure_client.__init__ (String c org)
                    (config.azure_devops_pat settings) in
                (Ok client,
                 resources.mkWorld cs g (resources.network w) (Some client))
            | _ =>
                (Raise (ValueError no_organization_message),
                 resources.mkWorld cs g (resources.network w) None)
            end
        end
    end.
Proof.
  intros Hc. unfold resources.get_ado_client, resources.read_client.
  unfold mbind, M_bind, resources.in_config, resources.in_git, zoom.
  rewrite Hc. cbn [resources.settings resources.git resources.network
                   resources._ado_client].
  destruct (config.get_settings _) as [[settings|e] cs];
    cbn [resources.settings resources.git resources.network
         resources._ado_client]; [| by rewrite Hc].
  destruct (git_detector.detect_current_repo _) as [[repo_info|e] g];
    cbn [resources.settings resources.git resources.network
         resources._ado_client]; [| by rewrite Hc].
  unfold first_organization.
  destruct repo_info as [info|];
    [destruct (git_detector.organization info)
    | destruct (config.ado_organization settings) as [[|]|]];
    by rewrite ?Hc.
Qed.

Lemma get_ado_client_result w c w' :
  resources.get_ado_client w = (Ok c, w') ->
  resources._ado_client w' = Some c.
Proof.
  destruct (resources._ado_client w) as [client|] eqn:Hc.
  - rewrite (get_ado_client_cached _ _ Hc). by intros [= <- <-].
  - rewrite (get_ado_client_uncached _ Hc). cbv zeta.
    repeat case_match; intros; by simplify_eq.
Qed.

Lemma get_ado_client_failure w e w' :
  resources.get_ado_client w = (Raise e, w') ->
  resources._ado_client w' = None /\ resources.network w' = resources.network w.
Proof.
  destruct (resources._ado_client w) as [client|] eqn:Hc.
  - by rewrite (get_ado_client_cached _ _ Hc).
  - rewrite (get_ado_client_uncached _ Hc). cbv zeta.
    repeat case_match; intros; by simplify_eq.
Qed.

Lemma list_pull_requests_resource_failure organization project repository
    status w e w' :
  resources.get_ado_client w = (Raise e, w') ->
  resources.list_pull_requests_resource organization project repository
    status w = (Raise e, w').
Proof.
  intros Hg. unfold resources.list_pull_requests_resource, mtry.
  unfold mbind, M_bind. by rewrite Hg.
Qed.

Lemma list_current_pull_requests_resource_eq status w info g client w1 :
  git_detector.detect_current_repo (resources.git w) = (Ok (Some info), g) ->
  resources.get_ado_client
    (resources.mkWorld (resources.settings w) g (resources.network w)
       (resources._ado_client w))
  = (Ok client, w1) ->
  resources.list_current_pull_requests_resource status w
  = let out := azure_client.get_pull_requests client
                 (git_detector.project info) (git_detector.repository info)
                 status (resources.network w1) in
    (models.model_dump_json <$> out.1,
     resources.mkWorld (resources.settings w1) (resources.git w1) out.2
       (resources._ado_client w1)).
Proof.
  intros Hd Hg. unfold resources.list_current_pull_requests_resource, mtry.
  unfold mbind, M_bind, resources.in_git, resources.in_network, zoom.
  rewrite Hd, Hg.
  by destruct (azure_client.get_pull_requests _ _ _ _ _) as [[l|e] n'].
Qed.

End process.

(** X16: the settings are loaded once.  After a call of [get_settings]
    that returns, every later call returns the same settings whatever the
    environment has become; a call that raises (the credential is missing)
    stores nothing, so the next call reads the environment again. *)
Theorem settings_loaded_once (s : config.State) :
  (forall settings s',
     config.get_settings s = (Ok settings, s') ->
     config._settings s' = Some settings
     /\ forall environ',
          config.get_settings (config.mkState environ' (config._settings s'))
          = (Ok settings, config.mkState environ' (config._settings s')))
  /\ (forall e s',
        config.get_settings s = (Raise e, s') ->
        s' = s /\ config._settings s = None).
Proof.
  unfold config.get_settings. split.
  - intros settings s' Hget.
    assert (Hs' : config._settings s' = Some settings).
    { repeat case_match; by simplify_eq. }
    split; [done |]. intros environ'. simpl. by rewrite Hs'.
  - intros e s' Hget. repeat case_match; by simplify_eq.
Qed.

Lemma settings_loaded_once_witness :
  let s := config.mkState (Ok test_settings) None in
  let s' := config.mkState (Ok test_settings) (Some test_settings) in
  (config._settings s' = Some test_settings
   /\ forall environ',
        config.get_settings (config.mkState environ' (config._settings s'))
        = (Ok test_settings, config.mkState environ' (config._settings s')))
  /\ (let broken :=
        config.mkState (Raise (ValidationError "Settings")) None in
      broken = broken /\ config._settings broken = None).
Proof.
  intros s s'. split.
  - exact (proj1 (settings_loaded_once s) test_settings s' eq_refl).
  - intros broken.
    exact (proj2 (settings_loaded_once broken)
             (ValidationError "Settings") broken eq_refl).
Defined.

(** X17: the client is constructed at most once.  After a call of
    [get_ado_client] that returns a client, the client is stored, and in
    every later state of the process that still holds it the call returns
    it and changes nothing: it reads no settings and runs no [git]. *)
Theorem client_constructed_at_most_once `{UrlLib}
    (w w' : resources.World) (client : azure_client.AzureDevOpsClient) :
  resources.get_ado_client w = (Ok client, w') ->
  resources._ado_client w' = Some client
  /\ forall w'',
       resources._ado_client w'' = resources._ado_client w' ->
       resources.get_ado_client w'' = (Ok client, w'').
Proof.
  intros Hg. pose proof (get_ado_client_result _ _ _ Hg) as Hc.
  split; [done |]. intros w'' Hsame. apply get_ado_client_cached. congruence.
Qed.

Lemma client_constructed_at_most_once_witness :
  let w := fresh_world (Ok detected_remote) (Ok (ok_response (JObj ∅))) in
  let client := azure_client.__init__ "detected" "fake_pat_token" in
  let w' := (@resources.get_ado_client lenient_urllib w).2 in
  resources._ado_client w' = Some client
  /\ forall w'',
       resources._ado_client w'' = resources._ado_client w' ->
       @resources.get_ado_client lenient_urllib w''
       = (Ok client, w'').
Proof.
  intros w client w'.
  exact (@client_constructed_at_most_once lenient_urllib w w' client eq_refl).
Defined.

(** X18: when the client cannot be obtained, the handler of explicit
    coordinates raises the same exception, no client is stored and no
    request is sent. *)
Theorem client_failure_sends_nothing `{UrlLib} `{models.Pydantic}
    (organization project repository status : string)
    (w w' : resources.World) (e : exn) :
  resources.get_ado_client w = (Raise e, w') ->
  resources.list_pull_requests_resource organization project repository
    status w = (Raise e, w')
  /\ resources._ado_client w' = None
  /\ resources.network w' = resources.network w.
Proof.
  intros Hg. split; [by apply list_pull_requests_resource_failure |].
  by apply (get_ado_client_failure _ e).
Qed.

Lemma client_failure_sends_nothing_witness :
  let w' := (@resources.get_ado_client lenient_urllib unconfigured_world).2 in
  @resources.list_pull_requests_resource lenient_urllib plain_pydantic
    "myorg" "proj" "repo" "active" unconfigured_world
  = (Raise (ValueError no_organization_message), w')
  /\ resources._ado_client w' = None
  /\ resources.network w' = resources.network unconfigured_world.
Proof.
  intros w'.
  exact (@client_failure_sends_nothing lenient_urllib plain_pydantic
           "myorg" "proj" "repo" "active" unconfigured_world w'
           (ValueError no_organization_message) eq_refl).
Defined.

(** X19: in a process without a client, outside of any Azure DevOps clone
    and with no organization configured (none, or the empty string), the
    handler of explicit coordinates raises the "No organization found"
    [ValueError], whatever organization it was called for, and stores no
    client. *)
Theorem no_organization_is_an_error `{UrlLib} `{models.Pydantic}
    (organization project repository status : string) (w : resources.World)
    (settings : config.Settings) (cs : config.State)
    (g : git_detector.Subprocess) :
  resources._ado_client w = None ->
  config.get_settings (resources.settings w) = (Ok settings, cs) ->
  git_detector.detect_current_repo (resources.git w) = (Ok None, g) ->
  config.ado_organization settings = None
  \/ config.ado_organization settings = Some "" ->
  resources.list_pull_requests_resource organization project repository
    status w
  = (Raise (ValueError no_organization_message),
     resources.mkWorld cs g (resources.network w) None).
Proof.
  intros Hc Hs Hd Horg. apply list_pull_requests_resource_failure.
  rewrite (get_ado_client_uncached _ Hc), Hs, Hd. simpl.
  by destruct Horg as [-> | ->].
Qed.

Lemma no_organization_is_an_error_witness :
  (@resources.list_pull_requests_resource lenient_urllib plain_pydantic
     "myorg" "proj" "repo" "active" unconfigured_world).1
  = Raise (ValueError no_organization_message).
Proof.
  exact (f_equal fst
           (@no_organization_is_an_error lenient_urllib plain_pydantic
              "myorg" "proj" "repo" "active" unconfigured_world
              (config.mkSettings "fake_pat_token" None None None "stdio" "INFO")
              _ _ eq_refl eq_refl eq_refl (or_introl eq_refl))).
Defined.

(** X20: when the credential is missing, so that loading the settings
    raises, the first call of the handler of explicit coordinates raises
    that exception before [git] is run, and leaves the process as it
    was. *)
Theorem missing_credential_fails_first `{UrlLib} `{models.Pydantic}
    (organization project repository status : string) (w : resources.World)
    (e : exn) :
  resources._ado_client w = None ->
  config._settings (resources.settings w) = None ->
  config.environ (resources.settings w) = Raise e ->
  resources.list_pull_requests_resource organization project repository
    status w = (Raise e, w).
Proof.
  intros Hc Hs He. apply list_pull_requests_resource_failure.
  rewrite (get_ado_client_uncached _ Hc). unfold config.get_settings.
  rewrite Hs, He. destruct w. simpl in *. by subst.
Qed.

Lemma missing_credential_fails_first_witness :
  let w :=
    resources.mkWorld
      (config.mkState (Raise (ValidationError "Settings")) None)
      (git_detector.mkSubprocess (fun _ => Ok detected_remote) 0)
      (network_answering (Ok (ok_response (JObj ∅)))) None in
  @resources.list_pull_requests_resource lenient_urllib plain_pydantic
    "myorg" "proj" "repo" "active" w
  = (Raise (ValidationError "Settings"), w).
Proof.
  intros w.
  by apply (@missing_credential_fails_first lenient_urllib plain_pydantic).
Defined.

Section process_more.
Context `{UrlLib}.

Lemma get_ado_client_network w :
  resources.network (resources.get_ado_client w).2 = resources.network w.
Proof.
  destruct (resources._ado_client w) as [client|] eqn:Hc.
  - by rewrite (get_ado_client_cached _ _ Hc).
  - rewrite (get_ado_client_uncached _ Hc). cbv zeta.
    by repeat case_match.
Qed.

Lemma get_ado_client_git_uncached w settings cs :
  resources._ado_client w = None ->
  config.get_settings (resources.settings w) = (Ok settings, cs) ->
  resources.git (resources.get_ado_client w).2 = ran (resources.git w).
Proof.
  intros Hc Hs. rewrite (get_ado_client_uncached _ Hc), Hs. cbv zeta.
  rewrite (surjective_pairing (git_detector.detect_current_repo _)),
    detect_current_repo_calls.
  by repeat case_match.
Qed.

End process_more.

(** X21: once the client is obtained, the handler of explicit coordinates
    returns the JSON text of the list that the client returns, and raises
    whatever the client raises, unchanged. *)
Theorem explicit_handler_returns_dump_or_error `{UrlLib} `{models.Pydantic}
    (organization project repository status : string)
    (w w1 : resources.World) (client : azure_client.AzureDevOpsClient) :
  resources.get_ado_client w = (Ok client, w1) ->
  (resources.list_pull_requests_resource organization project repository
     status w).1
  = match (azure_client.get_pull_requests client project repository status
             (resources.network w1)).1 with
    | Ok l => Ok (models.model_dump_json l)
    | Raise e => Raise e
    end.
Proof.
  intros Hg. rewrite (list_pull_requests_resource_eq _ _ _ _ _ _ _ Hg).
  cbv zeta. cbn [fst]. by destruct (_.1).
Qed.

Lemma explicit_handler_returns_dump_or_error_witness :
  (@resources.list_pull_requests_resource lenient_urllib plain_pydantic
     "testorg" "proj" "repo" "active" later_world).1
  = match (@azure_client.get_pull_requests plain_pydantic test_client
             "proj" "repo" "active" (resources.network later_world)).1 with
    | Ok l => Ok (@models.model_dump_json plain_pydantic l)
    | Raise e => Raise e
    end.
Proof.
  exact (@explicit_handler_returns_dump_or_error lenient_urllib plain_pydantic
           "testorg" "proj" "repo" "active" later_world later_world
           test_client eq_refl).
Defined.

(** X22: when detection finds a repository, the handler of the current
    repository asks for the client of the process.  If the client is
    obtained, the handler sends one request through it for the detected
    project and repository, returns the JSON text of the client's list and
    raises whatever the client raises.  If obtaining the client raises,
    the handler raises the same exception and sends nothing. *)
Theorem current_handler_fetches_detected_repository
    `{UrlLib} `{models.Pydantic}
    (status : string) (w : resources.World)
    (info : git_detector.RepoInfo) (g : git_detector.Subprocess) :
  git_detector.detect_current_repo (resources.git w) = (Ok (Some info), g) ->
  let w0 :=
    resources.mkWorld (resources.settings w) g (resources.network w)
      (resources._ado_client w) in
  let out := resources.list_current_pull_requests_resource status w in
  (forall client w1,
     resources.get_ado_client w0 = (Ok client, w1) ->
     out.1
     = match (azure_client.get_pull_requests client
                (git_detector.project info) (git_detector.repository info)
                status (resources.network w)).1 with
       | Ok l => Ok (models.model_dump_json l)
       | Raise e => Raise e
       end
     /\ azure_client.sent (resources.network out.2)
        = (azure_client.sent (resources.network w)
           ++ [request_of client (git_detector.project info)
                 (git_detector.repository info) status])%list)
  /\
  (forall e w1,
     resources.get_ado_client w0 = (Raise e, w1) ->
     out = (Raise e, w1)
     /\ resources.network w1 = resources.network w).
Proof.
  intros Hd w0 out. subst out. split.
  - intros client w1 Hg.
    rewrite (list_current_pull_requests_resource_eq _ _ _ _ _ _ Hd Hg).
    assert (Hn : resources.network w1 = resources.network w).
    { pose proof (get_ado_client_network w0) as Hn. by rewrite Hg in Hn. }
    cbv zeta. cbn [fst snd resources.network]. rewrite Hn.
    split; [by destruct (_.1) | apply get_pull_requests_sent].
  - intros e w1 Hg. split.
    + unfold resources.list_current_pull_requests_resource, mtry.
      unfold mbind, M_bind, resources.in_git, zoom. rewrite Hd.
      fold w0. by rewrite Hg.
    + pose proof (get_ado_client_network w0) as Hn. by rewrite Hg in Hn.
Qed.

Lemma current_handler_fetches_detected_repository_witness :
  (let w := fresh_world (Ok detected_remote)
              (Ok (ok_response (JObj {[ "value" := JArr [mock_pr_data] ]}))) in
   let client := azure_client.__init__ "detected" "fake_pat_token" in
   let out :=
     @resources.list_current_pull_requests_resource lenient_urllib
       plain_pydantic "all" w in
   out.1
   = match (@azure_client.get_pull_requests plain_pydantic client "proj"
              "repo" "all" (resources.network w)).1 with
     | Ok l => Ok (@models.model_dump_json plain_pydantic l)
     | Raise e => Raise e
     end
   /\ azure_client.sent (resources.network out.2)
      = (azure_client.sent (resources.network w)
         ++ [request_of client "proj" "repo" "all"])%list)
  /\
  (let w := uncredentialed_clone in
   let w1 :=
     resources.mkWorld (resources.settings w) (ran (resources.git w))
       (resources.network w) None in
   @resources.list_current_pull_requests_resource lenient_urllib
     plain_pydantic "all" w
   = (Raise (ValidationError "Settings"), w1)
   /\ resources.network w1 = resources.network w).
Proof.
  split.
  - intros w client out.
    exact (proj1 (@current_handler_fetches_detected_repository lenient_urllib
                    plain_pydantic "all" w
                    (git_detector.mkRepoInfo "detected" "proj" "repo") _
                    eq_refl)
             client _ eq_refl).
  - intros w w1.
    exact (proj2 (@current_handler_fetches_detected_repository lenient_urllib
                    plain_pydantic "all" w
                    (git_detector.mkRepoInfo "detected" "proj" "repo") _
                    eq_refl)
             (ValidationError "Settings") w1 eq_refl).
Defined.

(** X23: the handler of the current repository runs [git] once when the
    client of the process exists, and twice on the call that constructs
    it: once to find the project and repository, once more inside
    [get_ado_client] to find the organization. *)
Theorem current_handler_git_runs `{UrlLib} `{models.Pydantic}
    (status : string) (w : resources.World) (info : git_detector.RepoInfo) :
  (git_detector.detect_current_repo (resources.git w)).1 = Ok (Some info) ->
  let after :=
    resources.git (resources.list_current_pull_requests_resource status w).2 in
  (forall client,
     resources._ado_client w = Some client ->
     after = ran (resources.git w))
  /\ (forall settings cs,
        resources._ado_client w = None ->
        config.get_settings (resources.settings w) = (Ok settings, cs) ->
        after = ran (ran (resources.git w))).
Proof.
  intros Hd after. subst after.
  assert (Hdet : git_detector.detect_current_repo (resources.git w)
                 = (Ok (Some info), ran (resources.git w))).
  { by rewrite (surjective_pairing (git_detector.detect_current_repo _)),
      Hd, detect_current_repo_calls. }
  set (w0 := resources.mkWorld (resources.settings w) (ran (resources.git w))
               (resources.network w) (resources._ado_client w)).
  assert (Hrun : resources.git
                   (resources.list_current_pull_requests_resource status w).2
                 = resources.git (resources.get_ado_client w0).2).
  { destruct (resources.get_ado_client w0) as [[client|e] w1] eqn:Hg.
    - by rewrite (list_current_pull_requests_resource_eq _ _ _ _ _ _ Hdet Hg).
    - unfold resources.list_current_pull_requests_resource, mtry.
      unfold mbind, M_bind, resources.in_git, zoom. rewrite Hdet.
      fold w0. by rewrite Hg. }
  rewrite Hrun. split.
  - intros client Hc. by rewrite (get_ado_client_cached w0 client Hc).
  - intros settings cs Hc Hs.
    by rewrite (get_ado_client_git_uncached w0 settings cs Hc Hs).
Qed.

Lemma current_handler_git_runs_witness :
  (let w := fresh_world (Ok detected_remote) (Ok (ok_response (JObj ∅))) in
   git_detector.run_calls
     (resources.git
        (@resources.list_current_pull_requests_resource lenient_urllib
           plain_pydantic "active" w).2)
   = 2%nat)
  /\ (let w := detected_later_world in
      git_detector.run_calls
        (resources.git
           (@resources.list_current_pull_requests_resource lenient_urllib
              plain_pydantic "active" w).2)
      = 2%nat).
Proof.
  split.
  - intros w.
    exact (f_equal git_detector.run_calls
             (proj2 (@current_handler_git_runs lenient_urllib plain_pydantic
                       "active" w
                       (git_detector.mkRepoInfo "detected" "proj" "repo")
                       eq_refl)
                test_settings
                (config.mkState (Ok test_settings) (Some test_settings))
                eq_refl eq_refl)).
  - intros w.
    exact (f_equal git_detector.run_calls
             (proj1 (@current_handler_git_runs lenient_urllib plain_pydantic
                       "active" w
                       (git_detector.mkRepoInfo "detected" "proj" "repo")
                       eq_refl)
                test_client eq_refl)).
Defined.
